(** * VoiceJournal app-icon scripts: a shallow embedding and its properties

    The repository holds two Python scripts under [app-icon/]:

    - [create_icon.py] draws the icon with Pillow ([create_voicejournal_icon])
      and writes it at thirteen sizes ([create_ios_icon_set]);
    - [create_icon_from_source.py] resizes an existing picture to the same
      thirteen sizes ([resize_icon]).

    Python values are modelled as the scripts use them: [int] as [Z], [float]
    as IEEE binary64 ([PrimFloat.float]), [str] as [string], Pillow image
    objects as references into a store, exceptions as a result type.  Pillow and
    the operating system are not part of the repository; their operations are
    modelled by what their documentation fixes (the pixel dimensions and mode
    of a result, which object an operation mutates, which one it allocates)
    and an image value records the operations that built it. *)

From Stdlib Require Import ZArith String Ascii List Lia.
From Stdlib Require Import Floats.PrimFloat Floats.FloatOps Floats.SpecFloat.
From Stdlib Require Import Numbers.Cyclic.Int63.Uint63.
From Stdlib Require Import Numbers.DecimalString.
From Stdlib Require Numbers.DecimalZ Numbers.DecimalPos.
From stdpp Require Import base gmap strings list list_numbers.

Set Warnings "-inexact-float".
Local Open Scope Z_scope.

(** ** Python numbers *)

Module Py.

(** A Python number is an [int] or a [float]. *)
Inductive num : Type :=
| I (z : Z)
| F (x : float).

(** [float(z)] for an [int]: exact below [2^53] in absolute value. *)
Definition float_of_Z (z : Z) : float :=
  if z <? 0 then PrimFloat.opp (PrimFloat.of_uint63 (Uint63.of_Z (- z)))
  else PrimFloat.of_uint63 (Uint63.of_Z z).

Definition to_float (a : num) : float :=
  match a with
  | I z => float_of_Z z
  | F x => x
  end.

(** [int(x)] for a finite [float]: truncation towards zero. *)
Definition trunc (x : float) : Z :=
  match Prim2SF x with
  | S754_finite s m e =>
      let v := if 0 <=? e then Z.pos m * 2 ^ e else Z.pos m / 2 ^ (- e) in
      if s then - v else v
  | _ => 0
  end.

Definition add (a b : num) : num :=
  match a, b with
  | I x, I y => I (x + y)
  | _, _ => F (PrimFloat.add (to_float a) (to_float b))
  end.

Definition sub (a b : num) : num :=
  match a, b with
  | I x, I y => I (x - y)
  | _, _ => F (PrimFloat.sub (to_float a) (to_float b))
  end.

Definition mul (a b : num) : num :=
  match a, b with
  | I x, I y => I (x * y)
  | _, _ => F (PrimFloat.mul (to_float a) (to_float b))
  end.

(** [a / b]: true division, always a [float].  Every division of the two
    scripts has a non-zero divisor when it is executed. *)
Definition truediv (a b : num) : num :=
  F (PrimFloat.div (to_float a) (to_float b)).

(** [a // b] on [int]s. *)
Definition floordiv (a b : Z) : Z := a / b.

(** [a ** 2]: for a [float], C's [pow(a, 2.0)], taken as the correctly
    rounded square. *)
Definition sq (a : num) : num := mul a a.

(** [abs(a)]. *)
Definition abs (a : num) : num :=
  match a with
  | I z => I (Z.abs z)
  | F x => F (PrimFloat.abs x)
  end.

(** [int(a)]. *)
Definition int (a : num) : Z :=
  match a with
  | I z => z
  | F x => trunc x
  end.

(** [str(z)] and the [{z}] of an f-string, for an [int]. *)
Definition str (z : Z) : string := NilZero.string_of_int (Z.to_int z).

(** [range(n)] and [range(a, b)]. *)
Definition range (n : Z) : list Z := seqZ 0 n.
Definition range2 (a b : Z) : list Z := seqZ a (b - a).

End Py.

Declare Scope py_scope.
Delimit Scope py_scope with py.
Bind Scope py_scope with Py.num.
Infix "+" := Py.add : py_scope.
Infix "-" := Py.sub : py_scope.
Infix "*" := Py.mul : py_scope.
Infix "/" := Py.truediv : py_scope.
Infix "//" := Py.floordiv (at level 40, left associativity) : Z_scope.
Abbreviation I := Py.I.
Abbreviation F := Py.F.

(** ** Paths *)

(** [os.path.join(a, b)] on POSIX paths. *)
Fixpoint ends_with_slash (a : string) : bool :=
  match a with
  | EmptyString => false
  | String c EmptyString => bool_decide (c = "/"%char)
  | String _ r => ends_with_slash r
  end.

Definition starts_with_slash (b : string) : bool :=
  match b with
  | EmptyString => false
  | String c _ => bool_decide (c = "/"%char)
  end.

Definition os_path_join (a b : string) : string :=
  if starts_with_slash b then b
  else if bool_decide (a = "") || ends_with_slash a then a +:+ b
  else a +:+ "/" +:+ b.

Fixpoint has_slash (p : string) : bool :=
  match p with
  | EmptyString => false
  | String c r => bool_decide (c = "/"%char) || has_slash r
  end.

(** [os.path.basename(p)]: what follows the last slash. *)
Fixpoint os_path_basename (p : string) : string :=
  match p with
  | EmptyString => EmptyString
  | String c r =>
      if has_slash r then os_path_basename r
      else if bool_decide (c = "/"%char) then r else p
  end.

(** [d] names the directory that holds the entry [p]. *)
Definition is_parent (d p : string) : bool :=
  let name := os_path_basename p in
  negb (bool_decide (name = "")) && bool_decide (os_path_join d name = p).

(** ** Exceptions *)

(** A raised Python exception: its class and [str(e)].  Every class used
    below derives from [Exception]. *)
Record exn : Type := Exception { exn_class : string; exn_str : string }.

Inductive Res (A : Type) : Type :=
| Ok (a : A)
| Raise (e : exn).
Arguments Ok {A} a.
Arguments Raise {A} e.

(** ** Pillow images *)

(** A fill colour: an [int] for mode ["L"], a 4-tuple for ["RGBA"]. *)
Inductive ink : Type :=
| Gray (v : Z)
| Rgba (r g b a : Z).

Definition point : Type := Py.num * Py.num.

(** The value of an image object, as the operations that produced it. *)
Inductive Image : Type :=
| ImNew (mode : string) (size : Z * Z) (color : ink)
| ImDecoded (mode : string) (size : Z * Z) (data : N)
| ImLine (im : Image) (xy : list point) (fill : ink) (width : Z)
| ImRoundedRectangle (im : Image) (xy : list point) (radius : Py.num) (fill : ink)
| ImPaste (im src : Image) (box : Z * Z) (mask : Image)
| ImAlphaComposite (im1 im2 : Image)
| ImGaussianBlur (im : Image) (radius : Z)
| ImResize (im : Image) (size : Z * Z) (resample : string)
    (box : option (Z * Z * Z * Z)).

(** [im.size]. *)
Fixpoint im_size (im : Image) : Z * Z :=
  match im with
  | ImNew _ size _ => size
  | ImDecoded _ size _ => size
  | ImLine im _ _ _ => im_size im
  | ImRoundedRectangle im _ _ _ => im_size im
  | ImPaste im _ _ _ => im_size im
  | ImAlphaComposite im1 _ => im_size im1
  | ImGaussianBlur im _ => im_size im
  | ImResize _ size _ _ => size
  end.

(** [im.mode]. *)
Fixpoint im_mode (im : Image) : string :=
  match im with
  | ImNew mode _ _ => mode
  | ImDecoded mode _ _ => mode
  | ImLine im _ _ _ => im_mode im
  | ImRoundedRectangle im _ _ _ => im_mode im
  | ImPaste im _ _ _ => im_mode im
  | ImAlphaComposite im1 _ => im_mode im1
  | ImGaussianBlur im _ => im_mode im
  | ImResize im _ _ _ => im_mode im
  end.

(** ** The world: object store, file system, console *)

(** What a file holds: an encoded image, or something [Image.open] cannot
    identify. *)
Inductive content : Type :=
| ImageFile (im : Image)
| OtherFile (bytes : list Z).

(** A reference to an image object. *)
Definition ref : Type := nat.

Record World : Type := mkWorld {
  heap : list Image;
  files : gmap string content;
  dirs : gset string;
  stdout : list string
}.

Definition set_heap (h : list Image) (w : World) : World :=
  mkWorld h (files w) (dirs w) (stdout w).
Definition set_files (f : gmap string content) (w : World) : World :=
  mkWorld (heap w) f (dirs w) (stdout w).
Definition set_dirs (d : gset string) (w : World) : World :=
  mkWorld (heap w) (files w) d (stdout w).
Definition set_stdout (o : list string) (w : World) : World :=
  mkWorld (heap w) (files w) (dirs w) o.

(** Failures that come from outside the program (a truncated file that
    fails to decode, a full disk, a permission): [None] is no failure. *)
Record Env : Type := mkEnv {
  open_fault : string -> option exn;
  resize_fault : Image -> Z * Z -> option exn;
  save_fault : Image -> string -> option exn;
  makedirs_fault : string -> option exn
}.

Definition no_faults : Env :=
  mkEnv (fun _ => None) (fun _ _ => None) (fun _ _ => None) (fun _ => None).

(** ** The monad of a running script *)

Definition M (A : Type) : Type := World -> Res A * World.

#[export] Instance M_ret : MRet M := fun A a w => (Ok a, w).
#[export] Instance M_bind : MBind M := fun A B f m w =>
  match m w with
  | (Ok a, w') => f a w'
  | (Raise e, w') => (Raise e, w')
  end.

Definition raise {A} (e : exn) : M A := fun w => (Raise e, w).

(** [try: body except Exception as e: handler(e)]. *)
Definition try_except {A} (body : M A) (handler : exn -> M A) : M A := fun w =>
  match body w with
  | (Ok a, w') => (Ok a, w')
  | (Raise e, w') => handler e w'
  end.

(** [for x in l: body(x)]. *)
Fixpoint for_ {A} (l : list A) (body : A -> M unit) : M unit :=
  match l with
  | [] => mret tt
  | x :: l' => body x;; for_ l' body
  end.

(** [print(s)]. *)
Definition print (s : string) : M unit := fun w =>
  (Ok tt, set_stdout (stdout w ++ [s]) w).

(** Allocation of a fresh image object, reading and in-place update. *)
Definition alloc (v : Image) : M ref := fun w =>
  (Ok (length (heap w)), set_heap (heap w ++ [v]) w).

Definition deref (r : ref) : M Image := fun w =>
  match heap w !! r with
  | Some v => (Ok v, w)
  | None => (Raise (Exception "ReferenceError" "no such object"), w)
  end.

(** An update through a reference that names no object changes nothing;
    the scripts only hold references they were given by an allocation. *)
Definition modify (r : ref) (f : Image -> Image) : M unit := fun w =>
  (Ok tt, set_heap (alter f r (heap w)) w).

(** [l[i]]. *)
Definition getitem {A} (l : list A) (i : Z) : M A :=
  let j := if 0 <=? i then i else Z.of_nat (length l) + i in
  match (if 0 <=? j then l !! Z.to_nat j else None) with
  | Some a => mret a
  | None => raise (Exception "IndexError" "list index out of range")
  end.

(** ** Pillow and [os], as far as the scripts use them *)

Section Scripts.

(** The outside world's failures are fixed for a run. *)
Context (E : Env).

(** [Image.new(mode, size, color)]: a fresh object; negative dimensions
    are refused. *)
Definition Image_new (mode : string) (size : Z * Z) (color : ink) : M ref :=
  if (size.1 <? 0) || (size.2 <? 0)
  then raise (Exception "ValueError" "Width and height must be >= 0")
  else alloc (ImNew mode size color).

(** [ImageDraw.Draw(im)]: a drawing handle on the object [im]; it keeps
    drawing on that object whatever the script's variables name later. *)
Record Draw : Type := mkDraw { draw_im : ref }.
Definition ImageDraw_Draw (im : ref) : Draw := mkDraw im.

(** [draw.line(xy, fill, width)], in place. *)
Definition draw_line (d : Draw) (xy : list point) (fill : ink) (width : Z) : M unit :=
  modify (draw_im d) (fun v => ImLine v xy fill width).

(** [draw.rounded_rectangle(xy, radius, fill)], in place. *)
Definition draw_rounded_rectangle (d : Draw) (xy : list point) (radius : Py.num)
    (fill : ink) : M unit :=
  modify (draw_im d) (fun v => ImRoundedRectangle v xy radius fill).

(** [im.paste(src, box, mask)], in place on [im]; the mask must have the
    size of the pasted image. *)
Definition Image_paste (im src : ref) (box : Z * Z) (mask : ref) : M unit :=
  s ← deref src;
  m ← deref mask;
  if bool_decide (im_size m = im_size s)
  then modify im (fun v => ImPaste v s box m)
  else raise (Exception "ValueError" "images do not match").

(** [Image.alpha_composite(im1, im2)]: a fresh object; both images must be
    ["RGBA"] and of one size. *)
Definition Image_alpha_composite (im1 im2 : ref) : M ref :=
  a ← deref im1;
  b ← deref im2;
  if bool_decide (im_mode a = "RGBA" ∧ im_mode b = "RGBA" ∧ im_size a = im_size b)
  then alloc (ImAlphaComposite a b)
  else raise (Exception "ValueError" "images do not match").

(** [im.filter(ImageFilter.GaussianBlur(radius))]: a fresh object. *)
Definition Image_filter_GaussianBlur (im : ref) (radius : Z) : M ref :=
  v ← deref im;
  alloc (ImGaussianBlur v radius).

(** [im.copy()]: a fresh object with the same value. *)
Definition Image_copy (im : ref) : M ref :=
  v ← deref im;
  alloc v.

(** [im.resize(size, resample)]: a fresh object of exactly the requested
    size, computed from the whole of [im] (no [box]). *)
Definition Image_resize (im : ref) (size : Z * Z) (resample : string) : M ref :=
  v ← deref im;
  match resize_fault E v size with
  | Some e => raise e
  | None =>
      if (size.1 <=? 0) || (size.2 <=? 0)
      then raise (Exception "ValueError" "height and width must be > 0")
      else alloc (ImResize v size resample None)
  end.

(** Some directory of [ds] holds the entry [p]. *)
Definition parent_exists (ds : gset string) (p : string) : bool :=
  bool_decide (set_Exists (fun d => is_parent d p = true) ds).

(** Creating or replacing the file [path]: its directory must exist. *)
Definition write_image (v : Image) (path : string) : M unit := fun w =>
  if parent_exists (dirs w) path then
    match save_fault E v path with
    | Some e => (Raise e, w)
    | None => (Ok tt, set_files (<[path := ImageFile v]> (files w)) w)
    end
  else (Raise (Exception "FileNotFoundError" path), w).

(** [im.save(path)]. *)
Definition Image_save (im : ref) (path : string) : M unit :=
  v ← deref im;
  write_image v path.

(** [Image.open(path)]: a fresh object holding the decoded file. *)
Definition Image_open (path : string) : M ref := fun w =>
  match files w !! path with
  | None => (Raise (Exception "FileNotFoundError" path), w)
  | Some (OtherFile _) => (Raise (Exception "UnidentifiedImageError" path), w)
  | Some (ImageFile v) =>
      match open_fault E path with
      | Some e => (Raise e, w)
      | None => alloc v w
      end
  end.

(** [os.makedirs(d, exist_ok=True)]. *)
Definition os_makedirs (d : string) : M unit := fun w =>
  if bool_decide (d = "") then (Raise (Exception "FileNotFoundError" d), w)
  else if bool_decide (is_Some (files w !! d)) then (Raise (Exception "FileExistsError" d), w)
  else match makedirs_fault E d with
       | Some e => (Raise e, w)
       | None => (Ok tt, set_dirs ({[d]} ∪ dirs w) w)
       end.

(** [os.path.exists(p)]. *)
Definition os_path_exists (p : string) : M bool := fun w =>
  (Ok (bool_decide (is_Some (files w !! p)) || bool_decide (p ∈ dirs w)), w).

(** ** [create_icon.py] *)

(** [create_voicejournal_icon(save_path, size=1024)]. *)
Definition create_voicejournal_icon (save_path : string) (size : Z) : M ref :=
  icon ← Image_new "RGBA" (size, size) (Rgba 255 255 255 0);
  let draw := ImageDraw_Draw icon in
  mask ← Image_new "L" (size, size) (Gray 0);
  let mask_draw := ImageDraw_Draw mask in
  let corner_radius := size // 5 in
  draw_rounded_rectangle mask_draw [(I 0, I 0); (I size, I size)]
    (I corner_radius) (Gray 255);;
  gradient ← Image_new "RGBA" (size, size) (Rgba 0 0 0 0);
  let gradient_draw := ImageDraw_Draw gradient in
  for_ (Py.range size) (fun y =>
    let r := Py.int (I 41 + (I 33 - I 41) * I y / I size) in
    let g := Py.int (I 128 + (I 76 - I 128) * I y / I size) in
    let b := Py.int (I 185 + (I 156 - I 185) * I y / I size) in
    draw_line gradient_draw [(I 0, I y); (I size, I y)] (Rgba r g b 255) 0);;
  Image_paste icon gradient (0, 0) mask;;
  let page_width := (I size * F 0.7)%py in
  let page_height := (I size * F 0.8)%py in
  let page_x := ((I size - page_width) / I 2)%py in
  let page_y := ((I size - page_height) / I 2)%py in
  page_mask ← Image_new "L" (size, size) (Gray 0);
  let page_mask_draw := ImageDraw_Draw page_mask in
  let page_corner_radius := size // 20 in
  draw_rounded_rectangle page_mask_draw
    [(page_x, page_y); ((page_x + page_width)%py, (page_y + page_height)%py)]
    (I page_corner_radius) (Gray 255);;
  page ← Image_new "RGBA" (size, size) (Rgba 0 0 0 0);
  let page_draw := ImageDraw_Draw page in
  for_ (Py.range2 (Py.int page_y) (Py.int (page_y + page_height))) (fun y =>
    let progress := ((I y - page_y) / page_height)%py in
    let r := Py.int (I 255 - I 10 * progress) in
    let g := Py.int (I 255 - I 5 * progress) in
    let b := Py.int (I 255) in
    draw_line page_draw [(page_x, I y); ((page_x + page_width)%py, I y)]
      (Rgba r g b 255) 0);;
  shadow ← Image_new "RGBA" (size, size) (Rgba 0 0 0 0);
  let shadow_draw := ImageDraw_Draw shadow in
  let shadow_offset := size // 50 in
  draw_rounded_rectangle shadow_draw
    [((page_x + I shadow_offset)%py, (page_y + I shadow_offset)%py);
     ((page_x + page_width + I shadow_offset)%py,
      (page_y + page_height + I shadow_offset)%py)]
    (I page_corner_radius) (Rgba 0 0 0 50);;
  shadow ← Image_filter_GaussianBlur shadow (size // 100);
  icon ← Image_alpha_composite icon shadow;
  Image_paste icon page (0, 0) page_mask;;
  let wave_height := (page_height * F 0.5)%py in
  let wave_width := (page_width * F 0.7)%py in
  let wave_x := ((I size - wave_width) / I 2)%py in
  let wave_y := ((I size - wave_height) / I 2 + I size * F 0.05)%py in
  let num_lines := 7 in
  let line_spacing := (wave_width / I (num_lines - 1))%py in
  let max_amplitude := (wave_height * F 0.25)%py in
  let amplitudes := foldl (fun amplitudes i =>
    let distance_from_center :=
      (Py.abs (I i - I (num_lines - 1) / I 2) / (I (num_lines - 1) / I 2))%py in
    let amplitude := (max_amplitude * (I 1 - F 0.8 * Py.sq distance_from_center))%py in
    amplitudes ++ [amplitude]) [] (Py.range num_lines) in
  wave_overlay ← Image_new "RGBA" (size, size) (Rgba 0 0 0 0);
  let wave_draw := ImageDraw_Draw wave_overlay in
  for_ (Py.range num_lines) (fun i =>
    let x := (wave_x + I i * line_spacing)%py in
    amplitude ← getitem amplitudes i;
    let center_factor :=
      (I 1 - Py.abs (I i - I (num_lines - 1) / I 2) / (I (num_lines - 1) / I 2))%py in
    let r := Py.int (I 89 + (I 41 - I 89) * center_factor) in
    let g := Py.int (I 65 + (I 128 - I 65) * center_factor) in
    let b := Py.int (I 169 + (I 185 - I 169) * center_factor) in
    let line_width :=
      Z.max 2 (Py.int (I size * F 0.015 * (F 0.5 + F 0.5 * center_factor))) in
    draw_rounded_rectangle wave_draw
      [((x - I line_width / I 2)%py, (wave_y + wave_height / I 2 - amplitude)%py);
       ((x + I line_width / I 2)%py, (wave_y + wave_height / I 2 + amplitude)%py)]
      (I line_width / I 2)%py (Rgba r g b 240));;
  glow ← Image_copy wave_overlay;
  glow ← Image_filter_GaussianBlur glow (size // 50);
  wave_mask ← Image_new "L" (size, size) (Gray 0);
  let wave_mask_draw := ImageDraw_Draw wave_mask in
  draw_rounded_rectangle wave_mask_draw
    [(page_x, page_y); ((page_x + page_width)%py, (page_y + page_height)%py)]
    (I page_corner_radius) (Gray 255);;
  glow_masked ← Image_new "RGBA" (size, size) (Rgba 0 0 0 0);
  Image_paste glow_masked glow (0, 0) wave_mask;;
  icon ← Image_alpha_composite icon glow_masked;
  icon ← Image_alpha_composite icon wave_overlay;
  let line_spacing := (page_height / I 8)%py in
  let line_color := Rgba 200 210 230 100 in
  for_ (Py.range2 1 8) (fun i =>
    let y_pos := (page_y + I i * line_spacing)%py in
    draw_line draw
      [((page_x + page_width * F 0.1)%py, y_pos);
       ((page_x + page_width * F 0.9)%py, y_pos)]
      line_color (Z.max 1 (Py.int (I size * F 0.002))));;
  Image_save icon save_path;;
  mret icon.

(** The thirteen edge lengths. *)
Definition sizes : list Z := [1024; 180; 167; 152; 120; 87; 80; 76; 60; 58; 40; 29; 20].

(** [d[k] = v] on a [dict] kept in insertion order. *)
Fixpoint dict_set (d : list (Z * string)) (k : Z) (v : string) : list (Z * string) :=
  match d with
  | [] => [(k, v)]
  | (k', v') :: d' => if bool_decide (k' = k) then (k, v) :: d' else (k', v') :: dict_set d' k v
  end.

(** [create_ios_icon_set(base_path)]; the loop threads [icon_paths]. *)
Fixpoint create_ios_icon_set_loop (base_path : string) (base_icon : ref)
    (todo : list Z) (icon_paths : list (Z * string)) : M (list (Z * string)) :=
  match todo with
  | [] => mret icon_paths
  | size :: todo' =>
      if bool_decide (size ≠ 1024) then
        scaled_icon ← Image_resize base_icon (size, size) "LANCZOS";
        let file_path := os_path_join base_path ("icon_" +:+ Py.str size +:+ ".png") in
        Image_save scaled_icon file_path;;
        create_ios_icon_set_loop base_path base_icon todo' (dict_set icon_paths size file_path)
      else create_ios_icon_set_loop base_path base_icon todo' icon_paths
  end.

Definition create_ios_icon_set (base_path : string) : M (list (Z * string)) :=
  let icon_paths := [] in
  base_icon ← create_voicejournal_icon (os_path_join base_path "icon_1024.png") 1024;
  let icon_paths := dict_set icon_paths 1024 (os_path_join base_path "icon_1024.png") in
  create_ios_icon_set_loop base_path base_icon sizes icon_paths.

(** The script run as [__main__]; [script_dir] is
    [os.path.dirname(os.path.abspath(__file__))]. *)
Definition create_icon_main (script_dir : string) : M unit :=
  let base_path := script_dir in
  icons ← create_ios_icon_set base_path;
  print ("Created icon set at: " +:+ base_path);;
  for_ icons (fun '(size, path) =>
    print ("Icon " +:+ Py.str size +:+ "x" +:+ Py.str size +:+ "px: " +:+ path)).

(** ** [create_icon_from_source.py] *)

(** [resize_icon(source_image_path, output_dir)]. *)
Definition resize_icon (source_image_path output_dir : string) : M unit :=
  opened ← try_except
    (source_image ← Image_open source_image_path;
     print ("Opened source image: " +:+ source_image_path);;
     mret (Some source_image))
    (fun e =>
     print ("Error opening source image: " +:+ exn_str e);;
     mret None);
  match opened with
  | None => mret tt
  | Some source_image =>
      os_makedirs output_dir;;
      for_ sizes (fun size =>
        let output_path := os_path_join output_dir ("icon_" +:+ Py.str size +:+ ".png") in
        try_except
          (resized_image ← Image_resize source_image (size, size) "LANCZOS";
           Image_save resized_image output_path;;
           print ("Created icon " +:+ Py.str size +:+ "x" +:+ Py.str size +:+ "px: "
                  +:+ output_path))
          (fun e =>
           print ("Error creating " +:+ Py.str size +:+ "x" +:+ Py.str size +:+ " icon: "
                  +:+ exn_str e)))
  end.

Definition source_path : string :=
  "/Users/meetri/Documents/dev/apps/voicejournal/dalle-1746388708791.png".

(** The script run as [__main__]. *)
Definition resize_main (script_dir : string) : M unit :=
  let output_dir := script_dir in
  exists_ ← os_path_exists source_path;
  if negb exists_ then
    print ("Source image not found at: " +:+ source_path)
  else
    resize_icon source_path output_dir;;
    print ("Icon generation complete. Icons saved to: " +:+ output_dir).

End Scripts.

(** ** The picture as a value

    What [create_voicejournal_icon] computes, written as pure functions of
    [size]: the final value of each of the fifteen image objects the call
    allocates, in allocation order.  [create_voicejournal_icon_run] below
    proves that the script builds exactly these. *)

Section Picture.

Variable size : Z.

Definition page_width : Py.num := (I size * F 0.7)%py.
Definition page_height : Py.num := (I size * F 0.8)%py.
Definition page_x : Py.num := ((I size - page_width) / I 2)%py.
Definition page_y : Py.num := ((I size - page_height) / I 2)%py.
Definition wave_height : Py.num := (page_height * F 0.5)%py.
Definition wave_width : Py.num := (page_width * F 0.7)%py.
Definition wave_x : Py.num := ((I size - wave_width) / I 2)%py.
Definition wave_y : Py.num := ((I size - wave_height) / I 2 + I size * F 0.05)%py.
Definition max_amplitude : Py.num := (wave_height * F 0.25)%py.

Definition blank : Image := ImNew "RGBA" (size, size) (Rgba 0 0 0 0).

Definition page_outline (v : Image) : Image :=
  ImRoundedRectangle v
    [(page_x, page_y); ((page_x + page_width)%py, (page_y + page_height)%py)]
    (I (size // 20)) (Gray 255).

Definition mask_image : Image :=
  ImRoundedRectangle (ImNew "L" (size, size) (Gray 0))
    [(I 0, I 0); (I size, I size)] (I (size // 5)) (Gray 255).

Definition gradient_row (y : Z) (v : Image) : Image :=
  ImLine v [(I 0, I y); (I size, I y)]
    (Rgba (Py.int (I 41 + (I 33 - I 41) * I y / I size))
          (Py.int (I 128 + (I 76 - I 128) * I y / I size))
          (Py.int (I 185 + (I 156 - I 185) * I y / I size)) 255) 0.

Definition gradient_image : Image :=
  foldl (fun v y => gradient_row y v) blank (Py.range size).

Definition page_mask_image : Image :=
  page_outline (ImNew "L" (size, size) (Gray 0)).

Definition page_row (y : Z) (v : Image) : Image :=
  ImLine v [(page_x, I y); ((page_x + page_width)%py, I y)]
    (Rgba (Py.int (I 255 - I 10 * ((I y - page_y) / page_height)))
          (Py.int (I 255 - I 5 * ((I y - page_y) / page_height)))
          255 255) 0.

Definition page_image : Image :=
  foldl (fun v y => page_row y v) blank
    (Py.range2 (Py.int page_y) (Py.int (page_y + page_height))).

Definition shadow_shape : Image :=
  ImRoundedRectangle blank
    [((page_x + I (size // 50))%py, (page_y + I (size // 50))%py);
     ((page_x + page_width + I (size // 50))%py,
      (page_y + page_height + I (size // 50))%py)]
    (I (size // 20)) (Rgba 0 0 0 50).

Definition shadow_image : Image := ImGaussianBlur shadow_shape (size // 100).

(** Bar [i] of the sound wave. *)
Definition distance_from_center (i : Z) : Py.num :=
  (Py.abs (I i - I (7 - 1) / I 2) / (I (7 - 1) / I 2))%py.
Definition amplitude (i : Z) : Py.num :=
  (max_amplitude * (I 1 - F 0.8 * Py.sq (distance_from_center i)))%py.
Definition center_factor (i : Z) : Py.num := (I 1 - distance_from_center i)%py.
Definition bar_ink (i : Z) : ink :=
  Rgba (Py.int (I 89 + (I 41 - I 89) * center_factor i))
       (Py.int (I 65 + (I 128 - I 65) * center_factor i))
       (Py.int (I 169 + (I 185 - I 169) * center_factor i)) 240.
Definition line_width (i : Z) : Z :=
  Z.max 2 (Py.int (I size * F 0.015 * (F 0.5 + F 0.5 * center_factor i))).
Definition bar_x (i : Z) : Py.num := (wave_x + I i * (wave_width / I (7 - 1)))%py.

Definition wave_bar (i : Z) (v : Image) : Image :=
  ImRoundedRectangle v
    [((bar_x i - I (line_width i) / I 2)%py,
      (wave_y + wave_height / I 2 - amplitude i)%py);
     ((bar_x i + I (line_width i) / I 2)%py,
      (wave_y + wave_height / I 2 + amplitude i)%py)]
    (I (line_width i) / I 2)%py (bar_ink i).

Definition wave_image : Image :=
  foldl (fun v i => wave_bar i v) blank (Py.range 7).

Definition glow_image : Image := ImGaussianBlur wave_image (size // 50).

Definition glow_masked_image : Image :=
  ImPaste blank glow_image (0, 0) page_mask_image.

(** The first [icon] object after the gradient is pasted, ... *)
Definition icon_background : Image :=
  ImPaste (ImNew "RGBA" (size, size) (Rgba 255 255 255 0))
    gradient_image (0, 0) mask_image.

(** ... the second, made by the first [alpha_composite], with the page
    pasted on it, ... *)
Definition icon_with_page : Image :=
  ImPaste (ImAlphaComposite icon_background shadow_image)
    page_image (0, 0) page_mask_image.

(** ... the third and the fourth, which is saved and returned. *)
Definition icon_with_glow : Image := ImAlphaComposite icon_with_page glow_masked_image.
Definition render : Image := ImAlphaComposite icon_with_glow wave_image.

(** The notebook lines, as drawn through [draw]. *)
Definition notebook_line (i : Z) (v : Image) : Image :=
  ImLine v
    [((page_x + page_width * F 0.1)%py, (page_y + I i * (page_height / I 8))%py);
     ((page_x + page_width * F 0.9)%py, (page_y + I i * (page_height / I 8))%py)]
    (Rgba 200 210 230 100) (Z.max 1 (Py.int (I size * F 0.002))).

(** The first [icon] object at the end of the call: it is the one [draw]
    draws on. *)
Definition first_icon_final : Image :=
  foldl (fun v i => notebook_line i v) icon_background (Py.range2 1 8).

(** The fifteen objects, in allocation order. *)
Definition objects : list Image :=
  [ first_icon_final; mask_image; gradient_image; page_mask_image; page_image;
    shadow_shape; shadow_image; icon_with_page; wave_image; wave_image;
    glow_image; page_mask_image; glow_masked_image; icon_with_glow; render ].

End Picture.

(** ** Names, log lines and outcomes used in the statements *)

(** [f"icon_{size}.png"] and its place under a directory. *)
Definition icon_name (size : Z) : string := "icon_" +:+ Py.str size +:+ ".png".
Definition icon_path (dir : string) (size : Z) : string :=
  os_path_join dir (icon_name size).

(** The three lines [resize_icon] prints. *)
Definition opened_line (src : string) : string := "Opened source image: " +:+ src.
Definition created_line (dir : string) (size : Z) : string :=
  "Created icon " +:+ Py.str size +:+ "x" +:+ Py.str size +:+ "px: " +:+ icon_path dir size.
Definition error_line (size : Z) (e : exn) : string :=
  "Error creating " +:+ Py.str size +:+ "x" +:+ Py.str size +:+ " icon: " +:+ exn_str e.

(** One turn of the loop of [resize_icon] for [size], on the source value
    [im] with the directories [ds]: the image written, or the exception
    caught.  It reads the outside world at [size] only. *)
Definition attempt (E : Env) (ds : gset string) (im : Image) (dir : string)
    (size : Z) : Res Image :=
  match resize_fault E im (size, size) with
  | Some e => Raise e
  | None =>
      if size <=? 0 then Raise (Exception "ValueError" "height and width must be > 0")
      else if parent_exists ds (icon_path dir size) then
        match save_fault E (ImResize im (size, size) "LANCZOS" None) (icon_path dir size) with
        | Some e => Raise e
        | None => Ok (ImResize im (size, size) "LANCZOS" None)
        end
      else Raise (Exception "FileNotFoundError" (icon_path dir size))
  end.

Definition log_line (E : Env) (ds : gset string) (im : Image) (dir : string)
    (size : Z) : string :=
  match attempt E ds im dir size with
  | Ok _ => created_line dir size
  | Raise e => error_line size e
  end.

(** The file one turn writes, if any. *)
Definition attempt_file (E : Env) (ds : gset string) (im : Image) (dir : string)
    (size : Z) : option content :=
  match attempt E ds im dir size with
  | Ok v => Some (ImageFile v)
  | Raise _ => None
  end.

(** The file [create_ios_icon_set] writes for [size] in its loop, if any. *)
Definition scaled_file (base_icon : Image) (size : Z) : option content :=
  if bool_decide (size ≠ 1024)
  then Some (ImageFile (ImResize base_icon (size, size) "LANCZOS" None))
  else None.

(** The disk after the files [g size] are written for the sizes of [l], in
    that order. *)
Definition write_all (dir : string) (g : Z -> option content)
    (fs : gmap string content) (l : list Z) : gmap string content :=
  foldl (fun fs size =>
    match g size with
    | Some c => <[icon_path dir size := c]> fs
    | None => fs
    end) fs l.

(** The objects one turn leaves in the store. *)
Definition attempt_objects (E : Env) (im : Image) (size : Z) : list Image :=
  match resize_fault E im (size, size) with
  | Some _ => []
  | None => if size <=? 0 then [] else [ImResize im (size, size) "LANCZOS" None]
  end.

(** [os.makedirs(dir, exist_ok=True)] succeeds in [w]. *)
Definition makedirs_ok (E : Env) (w : World) (dir : string) : Prop :=
  dir <> ""%string /\ files w !! dir = None /\ makedirs_fault E dir = None.

(** The world [resize_icon] leaves when the source holds [im] and the
    directory could be made: one turn of the loop per size, in order. *)
Definition resized_world (E : Env) (w : World) (src dir : string) (im : Image) : World :=
  mkWorld (heap w ++ im :: concat (map (attempt_objects E im) sizes))
    (write_all dir (attempt_file E ({[dir]} ∪ dirs w) im dir) (files w) sizes)
    ({[dir]} ∪ dirs w)
    (stdout w ++ opened_line src :: map (log_line E ({[dir]} ∪ dirs w) im dir) sizes).

(** The file at [dir/icon_<size>.png] holds an image of [size] by [size]
    pixels. *)
Definition saved_square (w : World) (dir : string) (size : Z) : Prop :=
  exists im, files w !! icon_path dir size = Some (ImageFile im) /\ im_size im = (size, size).

(** How many [line] calls with the ink [c] went into an image, the images
    pasted or composited into it included. *)
Definition ink_eqb (a b : ink) : bool :=
  match a, b with
  | Gray x, Gray y => x =? y
  | Rgba r g b a, Rgba r' g' b' a' => (r =? r') && (g =? g') && (b =? b') && (a =? a')
  | _, _ => false
  end.

Fixpoint lines_with (c : ink) (im : Image) : nat :=
  match im with
  | ImNew _ _ _ | ImDecoded _ _ _ => 0
  | ImLine im _ fill _ => ((if ink_eqb fill c then 1 else 0) + lines_with c im)%nat
  | ImRoundedRectangle im _ _ _ => lines_with c im
  | ImPaste im src _ mask => (lines_with c im + lines_with c src + lines_with c mask)%nat
  | ImAlphaComposite im1 im2 => (lines_with c im1 + lines_with c im2)%nat
  | ImGaussianBlur im _ => lines_with c im
  | ImResize im _ _ _ => lines_with c im
  end.

Definition notebook_ink : ink := Rgba 200 210 230 100.

(** The rounded rectangles drawn on a fresh image, first drawn first. *)
Fixpoint rounded_rectangles (im : Image) : list (list point * Py.num * ink) :=
  match im with
  | ImRoundedRectangle im xy radius fill => rounded_rectangles im ++ [(xy, radius, fill)]
  | _ => []
  end.

(** The wave bars as the specification words them: [d_i = |i - 3| / 3],
    half-height [max_amplitude * (1 - 0.8 * d_i^2)], colour the linear
    interpolation from (89, 65, 169) to (41, 128, 185) by [1 - d_i],
    truncated. *)
Definition spec_d (i : Z) : Py.num := (Py.abs (I i - I 3) / I 3)%py.
Definition spec_half_height (size i : Z) : Py.num :=
  (max_amplitude size * (I 1 - F 0.8 * Py.sq (spec_d i)))%py.
Definition spec_lerp (a b : Z) (t : Py.num) : Z := Py.int (I a + (I b - I a) * t)%py.
Definition spec_ink (i : Z) : ink :=
  Rgba (spec_lerp 89 41 (I 1 - spec_d i)%py)
       (spec_lerp 65 128 (I 1 - spec_d i)%py)
       (spec_lerp 169 185 (I 1 - spec_d i)%py) 240.

(** The same interpolation in exact rational arithmetic: [3 * value] is
    [3 * a + (b - a) * (3 - |i - 3|)], truncated by the division. *)
Definition exact_lerp (a b i : Z) : Z := (3 * a + (b - a) * (3 - Z.abs (i - 3))) `quot` 3.
Definition exact_ink (i : Z) : ink :=
  Rgba (exact_lerp 89 41 i) (exact_lerp 65 128 i) (exact_lerp 169 185 i) 240.

(** [c] occurs in [p]. *)
Fixpoint has_char (c : ascii) (p : string) : bool :=
  match p with
  | EmptyString => false
  | String a r => bool_decide (a = c) || has_char c r
  end.

(** Reading the result of a run. *)
Definition is_ok {A} (r : Res A) : bool :=
  match r with
  | Ok _ => true
  | Raise _ => false
  end.

Definition result_or {A} (d : A) (r : Res A) : A :=
  match r with
  | Ok a => a
  | Raise _ => d
  end.

(** ** Worlds and environments for the examples *)

(** An empty disk but for the directory ["out"]. *)
Definition world_out : World := mkWorld [] ∅ {["out"%string]} [].

(** No directory at all. *)
Definition world_bare : World := mkWorld [] ∅ ∅ [].

(** A 300 by 200 photograph at ["photo.png"], and no directory ["out"]. *)
Definition photo : Image := ImDecoded "RGB" (300, 200) 7.
Definition world_photo : World :=
  mkWorld [] {["photo.png"%string := ImageFile photo]} {[""%string]} [].

(** A picture that is already 180 by 180. *)
Definition square180 : Image := ImDecoded "RGBA" (180, 180) 9.
Definition world_square : World :=
  mkWorld [] {["photo.png"%string := ImageFile square180]} {[""%string]} [].

(** A world with objects in the store, lines on the console and other
    files on the disk. *)
Definition world_busy : World :=
  mkWorld [photo; square180] {["photo.png"%string := ImageFile photo]}
    {[""%string; "out"%string]} ["earlier output"%string].

(** A disk where ["notes.txt"] is not an image. *)
Definition world_text : World :=
  mkWorld [] {["notes.txt"%string := OtherFile [104; 105]]} {[""%string]} [].

(** The resize to 87 fails and so does the save of [icon_40.png]. *)
Definition faulty : Env :=
  mkEnv (fun _ => None)
    (fun _ sz => if bool_decide (sz = (87, 87)) then Some (Exception "MemoryError" "") else None)
    (fun _ p => if bool_decide (p = "out/icon_40.png"%string)
                then Some (Exception "OSError" "No space left on device") else None)
    (fun _ => None).

(** Failures that the renderer does not meet: nothing opens, no
    directory can be made, nothing resizes to 512 and ["other.png"] cannot be
    written. *)
Definition faulty_elsewhere : Env :=
  mkEnv (fun _ => Some (Exception "PermissionError" ""))
    (fun _ sz => if bool_decide (sz = (512, 512)) then Some (Exception "MemoryError" "") else None)
    (fun _ p => if bool_decide (p = "other.png"%string)
                then Some (Exception "OSError" "") else None)
    (fun _ => Some (Exception "PermissionError" "")).

(** ** What the scripts return and print *)

(** The line the [__main__] block of [create_icon.py] prints for an entry
    of the returned [dict]. *)
Definition icon_line (entry : Z * string) : string :=
  "Icon " +:+ Py.str entry.1 +:+ "x" +:+ Py.str entry.1 +:+ "px: " +:+ entry.2.

(** The [dict] a complete [create_ios_icon_set] returns. *)
Definition all_icon_paths (base_path : string) : list (Z * string) :=
  map (fun size => (size, icon_path base_path size)) sizes.

(** ** The two gradients, row by row *)

(** The fill of the line drawn last on an image. *)
Definition line_ink (im : Image) : ink :=
  match im with
  | ImLine _ _ fill _ => fill
  | _ => Gray 0
  end.

(** Channel by channel, [a] is at most [b]. *)
Definition ink_le (a b : ink) : bool :=
  match a, b with
  | Gray x, Gray y => x <=? y
  | Rgba r g b a, Rgba r' g' b' a' => (r <=? r') && (g <=? g') && (b <=? b') && (a <=? a')
  | _, _ => false
  end.

(** The rows the loop of the page gradient visits:
    [range(int(page_y), int(page_y + page_height))]. *)
Definition page_rows (size : Z) : list Z :=
  Py.range2 (Py.int (page_y size)) (Py.int (page_y size + page_height size)%py).

(** The colours of the rows of the two gradients, top row first. *)
Definition gradient_ink (size y : Z) : ink := line_ink (gradient_row size y (blank size)).
Definition page_ink (size y : Z) : ink := line_ink (page_row size y (blank size)).

Definition gradient_inks (size : Z) : list ink := map (gradient_ink size) (Py.range size).
Definition page_inks (size : Z) : list ink := map (page_ink size) (page_rows size).

(** Every ink of the list lies between [lo] and [hi]. *)
Definition inks_between (lo hi : ink) (l : list ink) : bool :=
  forallb (fun c => ink_le lo c && ink_le c hi) l.

(** No ink of the list is lighter than the one before it. *)
Fixpoint darkening (l : list ink) : bool :=
  match l with
  | [] => true
  | a :: l' =>
      match l' with
      | [] => true
      | b :: _ => ink_le b a && darkening l'
      end
  end.

(** The background gradient of [size]: it starts at the top colour, stays
    between the bottom and the top colour and never gets lighter. *)
Definition gradient_ok (size : Z) : bool :=
  let l := gradient_inks size in
  ink_eqb (hd (Gray 0) l) (Rgba 41 128 185 255)
  && inks_between (Rgba 33 76 156 255) (Rgba 41 128 185 255) l
  && darkening l.

(** The page gradient of [size], from white towards (245, 250, 255). *)
Definition page_ok (size : Z) : bool :=
  let l := page_inks size in
  inks_between (Rgba 245 250 255 255) (Rgba 255 255 255 255) l && darkening l.

(** For a small [size] the first row of the page is row 0 and is drawn
    with a red channel of 256. *)
Definition page_overflows (size : Z) : bool :=
  bool_decide (page_rows size !! 0%nat = Some 0)
  && ink_eqb (page_ink size 0) (Rgba 256 255 255 255).

(** ** Comparisons used in the statements about the picture *)

(** [a <= b] on Python numbers; the [int]s of the scripts are far below
    [2^53], where the conversion to [float] is exact. *)
Definition num_le (a b : Py.num) : bool :=
  PrimFloat.leb (Py.to_float a) (Py.to_float b).

(** A box [[(x0, y0), (x1, y1)]] with [x0 <= x1] and [y0 <= y1], as
    [rounded_rectangle] wants it. *)
Definition box_ok (xy : list point) : bool :=
  match xy with
  | [(x0, y0); (x1, y1)] => num_le x0 x1 && num_le y0 y1
  | _ => false
  end.

(** The images [create_voicejournal_icon] draws rounded rectangles on. *)
Definition rounded_images (size : Z) : list Image :=
  [mask_image size; page_mask_image size; shadow_shape size; wave_image size].

Definition boxes_ok (size : Z) : bool :=
  forallb (fun im => forallb (fun b => box_ok b.1.1) (rounded_rectangles im))
    (rounded_images size).

(** From the edge to the centre the bars get no shorter and no thinner, and
    none is thinner than 2. *)
Definition bar_tapers (size i : Z) : bool :=
  num_le (amplitude size i) (amplitude size (i + 1))
  && (line_width size i <=? line_width size (i + 1))
  && (2 <=? line_width size i).

Definition wave_tapers (size : Z) : bool := forallb (bar_tapers size) [0; 1; 2].

(** A disk where the source picture of [create_icon_from_source.py] is
    not an image. *)
Definition world_source_text : World :=
  mkWorld [] {[source_path := OtherFile [104; 105]]} {[""%string]} [].

(** * Properties *)

(** ** Running the monad *)

Lemma bind_run {A B} (m : M A) (k : A -> M B) W a W' :
  m W = (Ok a, W') -> (m ≫= k) W = k a W'.
Proof. intros H. unfold mbind, M_bind. rewrite H. reflexivity. Qed.

Lemma run_eta {A} (d : A) (x : Res A * World) :
  is_ok x.1 = true -> x = (Ok (result_or d x.1), x.2).
Proof. by destruct x as [[a|e] w]. Qed.

Lemma alloc_run v h fs ds out :
  alloc v (mkWorld h fs ds out) = (Ok (length h), mkWorld (h ++ [v]) fs ds out).
Proof. reflexivity. Qed.

Lemma Image_new_run mode w0 h0 c h fs ds out :
  0 <= w0 -> 0 <= h0 ->
  Image_new mode (w0, h0) c (mkWorld h fs ds out)
  = (Ok (length h), mkWorld (h ++ [ImNew mode (w0, h0) c]) fs ds out).
Proof.
  intros Hw Hh. unfold Image_new. cbn [fst snd].
  destruct (Z.ltb_spec w0 0); [lia|]. destruct (Z.ltb_spec h0 0); [lia|].
  reflexivity.
Qed.

Lemma modify_run r f h fs ds out :
  modify r f (mkWorld h fs ds out) = (Ok tt, mkWorld (alter f r h) fs ds out).
Proof. reflexivity. Qed.

Lemma deref_run r v h fs ds out :
  h !! r = Some v -> deref r (mkWorld h fs ds out) = (Ok v, mkWorld h fs ds out).
Proof. intros H. unfold deref. cbn [heap]. rewrite H. reflexivity. Qed.

(** A loop whose body draws on one object. *)
Lemma for_modify_run {A} (l : list A) r (g : A -> Image -> Image) (body : A -> M unit) :
  (forall x W, body x W = (Ok tt, set_heap (alter (g x) r (heap W)) W)) ->
  forall W, for_ l body W
    = (Ok tt, set_heap (alter (fun v => foldl (fun v x => g x v) v l) r (heap W)) W).
Proof.
  intros Hb. induction l as [|x l IH]; intros W.
  - cbn [for_ foldl]. unfold mret, M_ret. f_equal. destruct W as [h fs ds out].
    unfold set_heap; cbn. f_equal. symmetry. apply list_alter_id. done.
  - cbn [for_ foldl]. erewrite bind_run by apply Hb. rewrite IH.
    destruct W as [h fs ds out]. unfold set_heap; cbn. do 2 f_equal.
    apply (list_alter_alter_eq (fun v => foldl (fun v x => g x v) v l) (g x)).
Qed.

Lemma for_modify_run' {A} (l : list A) r (g : A -> Image -> Image)
    (body : A -> M unit) h fs ds out :
  (forall x W, body x W = (Ok tt, set_heap (alter (g x) r (heap W)) W)) ->
  for_ l body (mkWorld h fs ds out)
    = (Ok tt, mkWorld (alter (fun v => foldl (fun v x => g x v) v l) r h) fs ds out).
Proof. intros Hb. rewrite (for_modify_run l r g body Hb). reflexivity. Qed.

Lemma im_size_foldl {A} (g : A -> Image -> Image) (l : list A) v :
  (forall x v, im_size (g x v) = im_size v) ->
  im_size (foldl (fun v x => g x v) v l) = im_size v.
Proof.
  intros Hg. revert v. induction l as [|x l IH]; intros v; cbn [foldl]; [done|].
  rewrite IH. apply Hg.
Qed.

Lemma im_mode_foldl {A} (g : A -> Image -> Image) (l : list A) v :
  (forall x v, im_mode (g x v) = im_mode v) ->
  im_mode (foldl (fun v x => g x v) v l) = im_mode v.
Proof.
  intros Hg. revert v. induction l as [|x l IH]; intros v; cbn [foldl]; [done|].
  rewrite IH. apply Hg.
Qed.

Lemma lookup_base {A} (h l : list A) j : (h ++ l) !! (length h + j)%nat = l !! j.
Proof. rewrite lookup_app_r by lia. f_equal. lia. Qed.

Lemma length_base {A} (h l : list A) : length (h ++ l) = (length h + length l)%nat.
Proof. apply length_app. Qed.

Lemma app_base {A} (h l : list A) v : (h ++ l) ++ [v] = h ++ (l ++ [v]).
Proof. symmetry. apply app_assoc. Qed.

(** Symbolic execution keeps the store as [h ++ l], [h] the store before
    the call and [l] the objects allocated since, and names the object
    [l !! j] by [length h + j]. *)
Ltac norm :=
  cbn [draw_im ImageDraw_Draw];
  repeat first
    [ rewrite length_base
    | rewrite app_base
    | rewrite alter_app_r
    | rewrite lookup_base ];
  cbn [length app alter list_alter lookup list_lookup draw_im ImageDraw_Draw].

Ltac step L := etrans; [ eapply bind_run; L | cbv beta; norm ].

(** The same for a body that is only known on the elements of the list. *)
Lemma for_modify_in_run {A} (l : list A) r (g : A -> Image -> Image)
    (body : A -> M unit) h fs ds out :
  Forall (fun x => forall W, body x W = (Ok tt, set_heap (alter (g x) r (heap W)) W)) l ->
  for_ l body (mkWorld h fs ds out)
    = (Ok tt, mkWorld (alter (fun v => foldl (fun v x => g x v) v l) r h) fs ds out).
Proof.
  intros Hb. revert h. induction Hb as [|x l Hx Hl IH]; intros h.
  - cbn [for_ foldl]. unfold mret, M_ret. do 2 f_equal. symmetry. by apply list_alter_id.
  - cbn [for_ foldl]. erewrite bind_run by apply Hx. unfold set_heap; cbn [heap files dirs stdout].
    rewrite IH. do 2 f_equal.
    apply (list_alter_alter_eq (fun v => foldl (fun v x => g x v) v l) (g x)).
Qed.

Lemma Image_paste_run im src box mask s m h fs ds out :
  h !! src = Some s -> h !! mask = Some m -> im_size m = im_size s ->
  Image_paste im src box mask (mkWorld h fs ds out)
  = (Ok tt, mkWorld (alter (fun v => ImPaste v s box m) im h) fs ds out).
Proof.
  intros Hs Hm Hsz. unfold Image_paste.
  erewrite bind_run by (apply deref_run; eassumption).
  erewrite bind_run by (apply deref_run; eassumption).
  rewrite bool_decide_eq_true_2 by done. reflexivity.
Qed.

Lemma Image_alpha_composite_run im1 im2 a b h fs ds out :
  h !! im1 = Some a -> h !! im2 = Some b ->
  im_mode a = "RGBA"%string -> im_mode b = "RGBA"%string -> im_size a = im_size b ->
  Image_alpha_composite im1 im2 (mkWorld h fs ds out)
  = (Ok (length h), mkWorld (h ++ [ImAlphaComposite a b]) fs ds out).
Proof.
  intros Ha Hb Hma Hmb Hsz. unfold Image_alpha_composite.
  erewrite bind_run by (apply deref_run; eassumption).
  erewrite bind_run by (apply deref_run; eassumption).
  rewrite bool_decide_eq_true_2 by done. reflexivity.
Qed.

Lemma Image_filter_GaussianBlur_run im radius v h fs ds out :
  h !! im = Some v ->
  Image_filter_GaussianBlur im radius (mkWorld h fs ds out)
  = (Ok (length h), mkWorld (h ++ [ImGaussianBlur v radius]) fs ds out).
Proof.
  intros Hv. unfold Image_filter_GaussianBlur.
  erewrite bind_run by (apply deref_run; eassumption). reflexivity.
Qed.

Lemma Image_copy_run im v h fs ds out :
  h !! im = Some v ->
  Image_copy im (mkWorld h fs ds out) = (Ok (length h), mkWorld (h ++ [v]) fs ds out).
Proof.
  intros Hv. unfold Image_copy.
  erewrite bind_run by (apply deref_run; eassumption). reflexivity.
Qed.

Lemma Image_save_run E im path v h fs ds out :
  h !! im = Some v ->
  Image_save E im path (mkWorld h fs ds out) = write_image E v path (mkWorld h fs ds out).
Proof.
  intros Hv. unfold Image_save.
  erewrite bind_run by (apply deref_run; eassumption). reflexivity.
Qed.

Ltac look := rewrite lookup_base; reflexivity.
Ltac sizes_ok :=
  cbn [im_size im_mode];
  rewrite ?im_size_foldl, ?im_mode_foldl by (intros; reflexivity);
  reflexivity.

(** The script builds the fifteen objects of [objects size] on top of the
    store it finds, then saves [render size]. *)
Lemma create_voicejournal_icon_run E p size w :
  0 <= size ->
  create_voicejournal_icon E p size w
  = (write_image E (render size) p;; mret (length (heap w) + 14)%nat)
      (set_heap (heap w ++ objects size) w).
Proof.
  intros Hs. destruct w as [h fs ds out]. unfold set_heap; cbn [heap files dirs stdout].
  rewrite <- (app_nil_r h) at 1.
  unfold create_voicejournal_icon.
  step ltac:(apply Image_new_run; lia). cbv zeta.
  step ltac:(apply Image_new_run; lia).
  step ltac:(apply modify_run).
  step ltac:(apply Image_new_run; lia).
  step ltac:(apply for_modify_run' with (g := gradient_row size); intros; reflexivity).
  step ltac:(eapply Image_paste_run; [look | look | sizes_ok]).
  step ltac:(apply Image_new_run; lia).
  step ltac:(apply modify_run).
  step ltac:(apply Image_new_run; lia).
  step ltac:(apply for_modify_run' with (g := page_row size); intros; reflexivity).
  step ltac:(apply Image_new_run; lia).
  step ltac:(apply modify_run).
  step ltac:(eapply Image_filter_GaussianBlur_run; look).
  step ltac:(eapply Image_alpha_composite_run; [look | look | sizes_ok ..]).
  step ltac:(eapply Image_paste_run; [look | look | sizes_ok]).
  step ltac:(apply Image_new_run; lia).
  step ltac:(apply for_modify_in_run with (g := wave_bar size); repeat constructor; intros; reflexivity).
  step ltac:(eapply Image_copy_run; look).
  step ltac:(eapply Image_filter_GaussianBlur_run; look).
  step ltac:(apply Image_new_run; lia).
  step ltac:(apply modify_run).
  step ltac:(apply Image_new_run; lia).
  step ltac:(eapply Image_paste_run; [look | look | sizes_ok]).
  step ltac:(eapply Image_alpha_composite_run; [look | look | sizes_ok ..]).
  step ltac:(eapply Image_alpha_composite_run; [look | look | sizes_ok ..]).
  step ltac:(apply for_modify_run' with (g := notebook_line size); intros; reflexivity).
  unfold mbind, M_bind at 1. erewrite Image_save_run by look.
  reflexivity.
Qed.

(** ** Paths and names *)

Lemma string_app_cons c r b : String c r +:+ b = String c (r +:+ b).
Proof. reflexivity. Qed.

Lemma string_app_nil b : "" +:+ b = b.
Proof. reflexivity. Qed.

Lemma basename_no_slash p : has_slash p = false -> os_path_basename p = p.
Proof.
  destruct p as [|c r]; [done|]. cbn [has_slash os_path_basename].
  intros [Hc Hr]%orb_false_iff. by rewrite Hr, Hc.
Qed.

Lemma ends_with_slash_has_slash a b : ends_with_slash a = true -> has_slash (a +:+ b) = true.
Proof.
  induction a as [|c r IH]; [done|]. rewrite string_app_cons. cbn [has_slash]. intros H.
  destruct r as [|c' r'].
  - cbn [ends_with_slash] in H. by rewrite H.
  - rewrite IH; [by rewrite orb_true_r | exact H].
Qed.

Lemma basename_app a name :
  a = ""%string \/ ends_with_slash a = true -> has_slash name = false ->
  os_path_basename (a +:+ name) = name.
Proof.
  intros Ha Hn. induction a as [|c r IH].
  - by apply basename_no_slash.
  - destruct Ha as [?|Ha]; [done|]. rewrite string_app_cons. cbn [os_path_basename].
    destruct r as [|c' r'].
    + cbn [ends_with_slash] in Ha. rewrite string_app_nil. by rewrite Hn, Ha.
    + assert (Hr : ends_with_slash (String c' r') = true) by exact Ha.
      rewrite (ends_with_slash_has_slash _ _ Hr). apply IH. by right.
Qed.

Lemma ends_with_slash_snoc a : ends_with_slash (a +:+ "/") = true.
Proof.
  induction a as [|c r IH]; [done|]. rewrite string_app_cons.
  destruct r as [|c' r']; [done|]. rewrite string_app_cons in *. exact IH.
Qed.

Lemma prefix_slash_no_slash b : has_slash b = false -> starts_with_slash b = false.
Proof.
  destruct b as [|c r]; [done|]. cbn [has_slash starts_with_slash].
  by intros [Hc _]%orb_false_iff.
Qed.

Lemma string_app_assoc a b c : (a +:+ b) +:+ c = a +:+ (b +:+ c).
Proof. induction a as [|x a IH]; [done|]. rewrite !string_app_cons. by rewrite IH. Qed.

Lemma basename_join d name :
  has_slash name = false -> os_path_basename (os_path_join d name) = name.
Proof.
  intros Hn. unfold os_path_join. rewrite (prefix_slash_no_slash _ Hn).
  destruct (bool_decide (d = ""%string) || ends_with_slash d) eqn:Hd.
  - apply basename_app; [|done]. apply orb_true_iff in Hd as [Hd|Hd]; [left|by right].
    by apply bool_decide_eq_true in Hd.
  - rewrite <- string_app_assoc. apply basename_app; [|done]. right.
    apply ends_with_slash_snoc.
Qed.

(** A directory is the parent of what [os.path.join] puts in it. *)
Lemma is_parent_join d name :
  has_slash name = false -> name <> ""%string -> is_parent d (os_path_join d name) = true.
Proof.
  intros Hn Hne. unfold is_parent. rewrite (basename_join _ _ Hn).
  rewrite bool_decide_eq_false_2 by done. by rewrite bool_decide_eq_true_2.
Qed.

Lemma os_path_join_inj d n1 n2 :
  starts_with_slash n1 = false -> starts_with_slash n2 = false ->
  os_path_join d n1 = os_path_join d n2 -> n1 = n2.
Proof.
  intros H1 H2. unfold os_path_join. rewrite H1, H2.
  destruct (bool_decide (d = ""%string) || ends_with_slash d).
  - apply String.app_inj.
  - intros H. apply String.app_inj in H. by simplify_eq.
Qed.

Lemma list_ascii_app a b :
  list_ascii_of_string (a +:+ b) = list_ascii_of_string a ++ list_ascii_of_string b.
Proof.
  induction a as [|c a IH]; [done|]. rewrite string_app_cons. cbn [list_ascii_of_string].
  by rewrite IH.
Qed.

Lemma string_app_inv_tail a b t : a +:+ t = b +:+ t -> a = b.
Proof.
  intros H. apply (f_equal list_ascii_of_string) in H. rewrite !list_ascii_app in H.
  apply app_inv_tail in H.
  rewrite <- (string_of_list_ascii_of_string a), <- (string_of_list_ascii_of_string b).
  by rewrite H.
Qed.

(** Decimal printing is injective. *)
Lemma str_inj a b : Py.str a = Py.str b -> a = b.
Proof.
  unfold Py.str. intros H. apply DecimalZ.to_int_inj.
  assert (Hd : forall z, NilZero.int_of_string (NilZero.string_of_int (Z.to_int z))
                         = Some (Z.to_int z)).
  { intros z. apply NilZero.isi; destruct z; cbn; try discriminate;
      intros [= Hp]; by apply DecimalPos.Unsigned.to_uint_nonnil in Hp. }
  apply (f_equal NilZero.int_of_string) in H. rewrite !Hd in H. by simplify_eq.
Qed.

Lemma has_slash_app a b : has_slash (a +:+ b) = has_slash a || has_slash b.
Proof.
  induction a as [|c a IH]; [done|]. rewrite string_app_cons. cbn [has_slash].
  by rewrite IH, orb_assoc.
Qed.

Lemma has_slash_uint d : has_slash (NilEmpty.string_of_uint d) = false.
Proof. induction d; cbn [NilEmpty.string_of_uint has_slash]; try done. Qed.

Lemma has_slash_str z : has_slash (Py.str z) = false.
Proof.
  unfold Py.str. destruct (Z.to_int z) as [d|d]; cbn [NilZero.string_of_int].
  - destruct d; try apply (has_slash_uint (_ _)); done.
  - cbn [has_slash]. destruct d; try apply (has_slash_uint (_ _)); done.
Qed.

Lemma icon_name_no_slash s : has_slash (icon_name s) = false.
Proof. unfold icon_name. by rewrite !has_slash_app, has_slash_str. Qed.

Lemma icon_name_nonempty s : icon_name s <> ""%string.
Proof. done. Qed.

Lemma icon_name_inj a b : icon_name a = icon_name b -> a = b.
Proof.
  unfold icon_name. intros H. apply String.app_inj in H.
  apply string_app_inv_tail in H. by apply str_inj.
Qed.

(** Distinct sizes have distinct files in a directory. *)
Lemma icon_path_inj d a b : icon_path d a = icon_path d b -> a = b.
Proof.
  unfold icon_path. intros H. apply icon_name_inj.
  by apply os_path_join_inj in H.
Qed.

Lemma is_parent_icon_path d s : is_parent d (icon_path d s) = true.
Proof. apply is_parent_join; [apply icon_name_no_slash | apply icon_name_nonempty]. Qed.

Lemma parent_exists_icon_path (ds : gset string) d s :
  d ∈ ds -> parent_exists ds (icon_path d s) = true.
Proof.
  intros Hd. unfold parent_exists. apply bool_decide_eq_true_2.
  exists d. split; [done | apply is_parent_icon_path].
Qed.

(** ** Files written for a list of sizes *)

Lemma lookup_write_all_other d g (fs : gmap string content) l p :
  (forall s, s ∈ l -> p <> icon_path d s) -> write_all d g fs l !! p = fs !! p.
Proof.
  revert fs. induction l as [|x l IH]; intros fs Hp; [done|].
  unfold write_all in *. cbn [foldl]. rewrite IH by (intros s Hs; apply Hp; by right).
  destruct (g x); [|done]. rewrite lookup_insert_ne; [done|].
  intros Heq. by apply (Hp x); [left|].
Qed.

Lemma lookup_write_all_notin d g (fs : gmap string content) l s :
  s ∉ l -> write_all d g fs l !! icon_path d s = fs !! icon_path d s.
Proof.
  intros Hs. apply lookup_write_all_other. intros s' Hs' Heq.
  apply icon_path_inj in Heq. by subst.
Qed.

Lemma lookup_write_all_in d g (fs : gmap string content) l s :
  s ∈ l ->
  write_all d g fs l !! icon_path d s
  = match g s with Some c => Some c | None => fs !! icon_path d s end.
Proof.
  revert fs. induction l as [|x l IH]; intros fs Hs; [by apply elem_of_nil in Hs|].
  change (write_all d g fs (x :: l))
    with (write_all d g (match g x with Some c => <[icon_path d x := c]> fs | None => fs end) l).
  destruct (decide (s ∈ l)) as [Hin|Hnin].
  - rewrite IH by done. destruct (g s) eqn:Hg; [done|].
    destruct (decide (x = s)) as [->|Hne]; [by rewrite Hg|].
    destruct (g x); [|done]. rewrite lookup_insert_ne; [done|].
    intros Heq. by apply icon_path_inj in Heq.
  - apply elem_of_cons in Hs as [->|?]; [|done].
    rewrite lookup_write_all_notin by done.
    destruct (g x); [|done]. by rewrite lookup_insert_eq.
Qed.

(** ** Inversion of the operations *)

Lemma bind_inv {A B} (m : M A) (k : A -> M B) W b W' :
  (m ≫= k) W = (Ok b, W') -> exists a W1, m W = (Ok a, W1) /\ k a W1 = (Ok b, W').
Proof.
  unfold mbind, M_bind. destruct (m W) as [[a|e] W1]; [eauto | discriminate].
Qed.

Lemma deref_inv r W v W' : deref r W = (Ok v, W') -> heap W !! r = Some v /\ W' = W.
Proof. unfold deref. destruct (heap W !! r); intros [= <- <-]; done. Qed.

Lemma Image_resize_inv E r sz res W r' W' :
  Image_resize E r sz res W = (Ok r', W') ->
  exists v, heap W !! r = Some v /\ r' = length (heap W) /\
    W' = set_heap (heap W ++ [ImResize v sz res None]) W /\
    resize_fault E v sz = None.
Proof.
  unfold Image_resize. intros (v & W1 & [Hv ->]%deref_inv & H)%bind_inv.
  exists v. destruct (resize_fault E v sz); [discriminate|].
  destruct ((sz.1 <=? 0) || (sz.2 <=? 0)); [discriminate|].
  unfold alloc in H. by simplify_eq.
Qed.

Lemma Image_save_inv E r p W u W' :
  Image_save E r p W = (Ok u, W') ->
  exists v, heap W !! r = Some v /\
    W' = set_files (<[p := ImageFile v]> (files W)) W /\
    parent_exists (dirs W) p = true.
Proof.
  unfold Image_save. intros (v & W1 & [Hv ->]%deref_inv & H)%bind_inv.
  exists v. unfold write_image in H. destruct (parent_exists (dirs W) p); [|discriminate].
  destruct (save_fault E v p); [discriminate|]. by simplify_eq.
Qed.

(** ** [create_ios_icon_set] *)

(** A successful loop writes [scaled_file] for each size, touches neither
    the directories nor the console, and allocates one object per resize. *)
Lemma create_ios_icon_set_loop_inv E bp base b todo :
  forall paths W r W',
  heap W !! base = Some b ->
  create_ios_icon_set_loop E bp base todo paths W = (Ok r, W') ->
  files W' = write_all bp (scaled_file b) (files W) todo /\
  dirs W' = dirs W /\ stdout W' = stdout W /\
  length (heap W') = (length (heap W) + length (filter (fun s : Z => s ≠ 1024%Z) todo))%nat /\
  (forall s, s ∈ todo -> s = 1024 \/ parent_exists (dirs W) (icon_path bp s) = true).
Proof.
  induction todo as [|s todo IH]; intros paths W r W' Hb Hrun.
  - cbn in Hrun. injection Hrun as <- <-. repeat split; try done.
    intros s Hs. by apply elem_of_nil in Hs.
  - cbn [create_ios_icon_set_loop] in Hrun. unfold write_all. cbn [foldl].
    fold (write_all bp (scaled_file b)). unfold scaled_file at 2.
    rewrite filter_cons. case_bool_decide as Hs.
    + apply bind_inv in Hrun as (r1 & W1 & Hres & Hrun).
      apply Image_resize_inv in Hres as (v & Hv & -> & -> & _).
      rewrite Hb in Hv. injection Hv as <-.
      apply bind_inv in Hrun as (u & W2 & Hsave & Hrun).
      apply Image_save_inv in Hsave as (v' & Hv' & -> & Hpar).
      cbn [heap set_heap files dirs stdout] in Hv', Hpar.
      rewrite lookup_app_r in Hv' by lia. rewrite Nat.sub_diag in Hv'. injection Hv' as <-.
      eapply IH in Hrun as (Hf & Hd & Ho & Hl & Hp).
      2:{ cbn [heap set_heap set_files]. by apply lookup_app_l_Some. }
      cbn [heap set_heap set_files files dirs stdout] in *.
      rewrite decide_True by done.
      repeat split; try done.
      * rewrite Hl, length_app. cbn. lia.
      * intros s' [->|Hs']%elem_of_cons; [by right | by apply Hp].
    + eapply IH in Hrun as (Hf & Hd & Ho & Hl & Hp); [|done].
      rewrite decide_False by lia.
      repeat split; try done.
      intros s' [->|Hs']%elem_of_cons; [left; lia | by apply Hp].
Qed.

Lemma write_image_inv E v p W u W' :
  write_image E v p W = (Ok u, W') ->
  W' = set_files (<[p := ImageFile v]> (files W)) W /\ parent_exists (dirs W) p = true.
Proof.
  unfold write_image. destruct (parent_exists (dirs W) p); [|discriminate].
  destruct (save_fault E v p); [discriminate|]. by intros [= <- <-].
Qed.

Lemma create_voicejournal_icon_negative E p size w :
  size < 0 ->
  create_voicejournal_icon E p size w
  = (Raise (Exception "ValueError" "Width and height must be >= 0"), w).
Proof.
  intros Hs. unfold create_voicejournal_icon, mbind, M_bind, Image_new. cbn [fst snd].
  destruct (Z.ltb_spec size 0); [done | lia].
Qed.

(** A successful call returns a reference to [render size], has saved that
    value, and leaves the fifteen objects in the store. *)
Lemma create_voicejournal_icon_inv E p size w r w' :
  create_voicejournal_icon E p size w = (Ok r, w') ->
  0 <= size /\ r = (length (heap w) + 14)%nat /\
  w' = mkWorld (heap w ++ objects size) (<[p := ImageFile (render size)]> (files w))
         (dirs w) (stdout w) /\
  parent_exists (dirs w) p = true.
Proof.
  intros Hrun. destruct (Z.lt_ge_cases size 0) as [Hneg|Hpos].
  { by rewrite create_voicejournal_icon_negative in Hrun. }
  rewrite create_voicejournal_icon_run in Hrun by done.
  apply bind_inv in Hrun as (u & W1 & [-> Hpar]%write_image_inv & Hret).
  injection Hret as <- <-. done.
Qed.

Lemma objects_length size : length (objects size) = 15%nat.
Proof. reflexivity. Qed.

Lemma objects_last size : objects size !! 14%nat = Some (render size).
Proof. reflexivity. Qed.

(** What a successful [create_ios_icon_set] leaves behind. *)
Lemma create_ios_icon_set_inv E bp w r w' :
  create_ios_icon_set E bp w = (Ok r, w') ->
  files w' = write_all bp (scaled_file (render 1024))
               (<[icon_path bp 1024 := ImageFile (render 1024)]> (files w)) sizes /\
  dirs w' = dirs w /\ stdout w' = stdout w /\
  length (heap w') = (length (heap w) + 15 + 12)%nat /\
  (forall s, s ∈ sizes -> parent_exists (dirs w) (icon_path bp s) = true).
Proof.
  unfold create_ios_icon_set. intros (base & W1 & Hicon & Hloop)%bind_inv.
  apply create_voicejournal_icon_inv in Hicon as (_ & -> & -> & Hpar).
  eapply create_ios_icon_set_loop_inv in Hloop as (Hf & Hd & Ho & Hl & Hp).
  2:{ cbn [heap]. rewrite lookup_base. apply objects_last. }
  cbn [heap files dirs stdout] in *. repeat split; try done.
  - rewrite Hl, length_app, objects_length. reflexivity.
  - intros s Hs. destruct (Hp s Hs) as [->|?]; done.
Qed.

(** ** [resize_icon] *)

Lemma Image_resize_run E r v sz res h fs ds out :
  h !! r = Some v ->
  Image_resize E r sz res (mkWorld h fs ds out)
  = match resize_fault E v sz with
    | Some e => (Raise e, mkWorld h fs ds out)
    | None =>
        if (sz.1 <=? 0) || (sz.2 <=? 0)
        then (Raise (Exception "ValueError" "height and width must be > 0"),
              mkWorld h fs ds out)
        else (Ok (length h), mkWorld (h ++ [ImResize v sz res None]) fs ds out)
    end.
Proof.
  intros Hv. unfold Image_resize. erewrite bind_run by (by apply deref_run).
  destruct (resize_fault E v sz); [done|].
  destruct ((sz.1 <=? 0) || (sz.2 <=? 0)); done.
Qed.

(** One turn of the loop: whatever happens, the turn returns normally; it
    leaves [attempt_objects], writes [attempt_file] and prints [log_line]. *)
Lemma resize_turn_run E src im dir s W :
  heap W !! src = Some im ->
  try_except
    (resized_image ← Image_resize E src (s, s) "LANCZOS";
     Image_save E resized_image (os_path_join dir ("icon_" +:+ Py.str s +:+ ".png"));;
     print ("Created icon " +:+ Py.str s +:+ "x" +:+ Py.str s +:+ "px: "
            +:+ os_path_join dir ("icon_" +:+ Py.str s +:+ ".png")))
    (fun e =>
     print ("Error creating " +:+ Py.str s +:+ "x" +:+ Py.str s +:+ " icon: "
            +:+ exn_str e)) W
  = (Ok tt,
     mkWorld (heap W ++ attempt_objects E im s)
       (write_all dir (attempt_file E (dirs W) im dir) (files W) [s])
       (dirs W) (stdout W ++ [log_line E (dirs W) im dir s])).
Proof.
  intros Him. destruct W as [h fs ds out]. cbn [heap files dirs stdout] in *.
  unfold write_all, attempt_file, log_line, attempt, attempt_objects. cbn [foldl].
  fold (icon_name s). fold (icon_path dir s). fold (created_line dir s).
  unfold try_except. unfold mbind at 1. unfold M_bind at 1.
  rewrite (Image_resize_run E src im) by done.
  destruct (resize_fault E im (s, s)) as [e|] eqn:Hrf.
  { unfold print. cbn. by rewrite app_nil_r. }
  cbn [fst snd]. rewrite orb_diag. destruct (s <=? 0) eqn:Hs.
  { unfold print. cbn. by rewrite app_nil_r. }
  unfold mbind at 1. unfold M_bind at 1.
  erewrite Image_save_run by (rewrite lookup_app_r by lia; by rewrite Nat.sub_diag).
  unfold write_image. cbn [dirs].
  destruct (parent_exists ds (icon_path dir s)).
  - destruct (save_fault E _ (icon_path dir s)); reflexivity.
  - reflexivity.
Qed.

Lemma resize_loop_run E src im dir (body : Z -> M unit) :
  (forall s W, heap W !! src = Some im ->
     body s W = (Ok tt,
       mkWorld (heap W ++ attempt_objects E im s)
         (write_all dir (attempt_file E (dirs W) im dir) (files W) [s])
         (dirs W) (stdout W ++ [log_line E (dirs W) im dir s]))) ->
  forall l W, heap W !! src = Some im ->
    for_ l body W = (Ok tt,
      mkWorld (heap W ++ concat (map (attempt_objects E im) l))
        (write_all dir (attempt_file E (dirs W) im dir) (files W) l)
        (dirs W) (stdout W ++ map (log_line E (dirs W) im dir) l)).
Proof.
  intros Hbody. induction l as [|s l IH]; intros W Him.
  - cbn. rewrite !app_nil_r. by destruct W.
  - cbn [for_]. erewrite bind_run by (by apply Hbody).
    rewrite IH by (cbn [heap]; by apply lookup_app_l_Some).
    cbn [heap files dirs stdout map concat]. by rewrite <- !app_assoc.
Qed.

Lemma Image_open_raise E src W e W' : Image_open E src W = (Raise e, W') -> W' = W.
Proof.
  unfold Image_open. destruct (files W !! src) as [[v|?]|]; try by intros [= _ <-].
  destruct (open_fault E src); [by intros [= _ <-] | discriminate].
Qed.

Lemma Image_open_ok E src W im :
  files W !! src = Some (ImageFile im) -> open_fault E src = None ->
  Image_open E src W = (Ok (length (heap W)), set_heap (heap W ++ [im]) W).
Proof. intros Hf Ho. unfold Image_open. by rewrite Hf, Ho. Qed.

Lemma Image_open_cases E src W :
  (exists e, Image_open E src W = (Raise e, W)) \/
  (exists im, files W !! src = Some (ImageFile im) /\ open_fault E src = None).
Proof.
  unfold Image_open. destruct (files W !! src) as [[v|?]|]; [|left; eauto..].
  destruct (open_fault E src); [left|right]; eauto.
Qed.

(** The source cannot be opened: one line is printed and nothing else
    changes. *)
Lemma resize_icon_not_opened E src dir W e W1 :
  Image_open E src W = (Raise e, W1) ->
  resize_icon E src dir W
  = (Ok tt, set_stdout (stdout W ++ ["Error opening source image: " +:+ exn_str e]) W).
Proof.
  intros Hopen. assert (W1 = W) as -> by (by eapply Image_open_raise).
  unfold resize_icon, mbind, M_bind, try_except. by rewrite Hopen.
Qed.

Lemma os_makedirs_ok E dir W :
  makedirs_ok E W dir -> os_makedirs E dir W = (Ok tt, set_dirs ({[dir]} ∪ dirs W) W).
Proof.
  intros (Hne & Hf & Hm). unfold os_makedirs.
  rewrite bool_decide_eq_false_2 by done.
  rewrite bool_decide_eq_false_2 by (rewrite Hf; by intros [? ?]).
  by rewrite Hm.
Qed.

Lemma os_makedirs_cases E dir W :
  makedirs_ok E W dir \/ exists e, os_makedirs E dir W = (Raise e, W).
Proof.
  unfold os_makedirs, makedirs_ok. case_bool_decide; [right; eauto|].
  case_bool_decide as Hf; [right; eauto|].
  destruct (makedirs_fault E dir) eqn:Hm; [right; eauto|left].
  split_and!; [done| |done]. destruct (files W !! dir); [|done]. exfalso. eauto.
Qed.

(** The source opens and the directory can be made: the run returns
    normally in [resized_world]. *)
Lemma resize_icon_run E src dir W im :
  files W !! src = Some (ImageFile im) -> open_fault E src = None ->
  makedirs_ok E W dir ->
  resize_icon E src dir W = (Ok tt, resized_world E W src dir im).
Proof.
  intros Hf Ho Hm. unfold resize_icon.
  erewrite bind_run.
  2:{ unfold try_except. erewrite bind_run by (by apply Image_open_ok).
      unfold mbind, M_bind, print, mret, M_ret. reflexivity. }
  cbn [set_heap set_stdout heap files dirs stdout].
  erewrite bind_run by (by apply os_makedirs_ok).
  cbn [set_dirs heap files dirs stdout].
  erewrite resize_loop_run with (E := E) (im := im) (dir := dir).
  - unfold resized_world, set_dirs, set_stdout, set_heap, opened_line.
    cbn [heap files dirs stdout]. by rewrite <- !app_assoc.
  - intros s W' HW'. by apply resize_turn_run.
  - unfold set_dirs, set_stdout, set_heap. cbn [heap].
    rewrite lookup_app_r by lia. by rewrite Nat.sub_diag.
Qed.

(** The directory cannot be made: the exception leaves [resize_icon]. *)
Lemma resize_icon_no_dir E src dir W im e :
  files W !! src = Some (ImageFile im) -> open_fault E src = None ->
  os_makedirs E dir
    (mkWorld (heap W ++ [im]) (files W) (dirs W) (stdout W ++ [opened_line src]))
  = (Raise e,
     mkWorld (heap W ++ [im]) (files W) (dirs W) (stdout W ++ [opened_line src])) ->
  resize_icon E src dir W
  = (Raise e,
     mkWorld (heap W ++ [im]) (files W) (dirs W) (stdout W ++ [opened_line src])).
Proof.
  intros Hf Ho Hm. unfold resize_icon.
  erewrite bind_run.
  2:{ unfold try_except. erewrite bind_run by (by apply Image_open_ok).
      unfold mbind, M_bind, print, mret, M_ret. reflexivity. }
  unfold set_heap, set_stdout. cbn [heap files dirs stdout].
  unfold mbind, M_bind. unfold opened_line in Hm. by rewrite Hm.
Qed.

(** ** Log lines *)

Lemma map_eq_pointwise {A B} (f g : A -> B) (l : list A) :
  map f l = map g l -> forall x, x ∈ l -> f x = g x.
Proof.
  induction l as [|a l IH]; intros H x Hx; [by apply elem_of_nil in Hx|].
  cbn [map] in H. injection H as Ha Hl.
  apply elem_of_cons in Hx as [->|Hx]; [done | by apply IH].
Qed.

Lemma error_line_not_created s e dir s' : error_line s e <> created_line dir s'.
Proof. unfold error_line, created_line. intros H. discriminate H. Qed.

Lemma attempt_ok_inv E ds im dir s v :
  attempt E ds im dir s = Ok v ->
  v = ImResize im (s, s) "LANCZOS" None /\ parent_exists ds (icon_path dir s) = true.
Proof.
  unfold attempt. destruct (resize_fault E im (s, s)); [discriminate|].
  destruct (s <=? 0); [discriminate|].
  destruct (parent_exists ds (icon_path dir s)); [|discriminate].
  destruct (save_fault E _ _); [discriminate|]. by intros [= <-].
Qed.

(** A turn that logs "Created icon" wrote the resized source. *)
Lemma log_line_created E ds im dir s :
  log_line E ds im dir s = created_line dir s ->
  attempt E ds im dir s = Ok (ImResize im (s, s) "LANCZOS" None).
Proof.
  unfold log_line. destruct (attempt E ds im dir s) as [v|e] eqn:Ha.
  - intros _. apply attempt_ok_inv in Ha as [-> _]. done.
  - intros H. by apply error_line_not_created in H.
Qed.

(** The three ways a call of [resize_icon] can go. *)
Lemma resize_icon_cases E src dir w :
  (exists e, Image_open E src w = (Raise e, w) /\
     resize_icon E src dir w
     = (Ok tt, set_stdout (stdout w ++ ["Error opening source image: " +:+ exn_str e]) w))
  \/ (exists im, files w !! src = Some (ImageFile im) /\ open_fault E src = None /\
       ((makedirs_ok E w dir /\
         resize_icon E src dir w = (Ok tt, resized_world E w src dir im))
        \/ (exists e, resize_icon E src dir w
              = (Raise e, mkWorld (heap w ++ [im]) (files w) (dirs w)
                            (stdout w ++ [opened_line src]))))).
Proof.
  destruct (Image_open_cases E src w) as [[e He]|(im & Hf & Ho)].
  - left. exists e. split; [done|]. by eapply resize_icon_not_opened.
  - right. exists im. split_and!; [done..|].
    destruct (os_makedirs_cases E dir
      (mkWorld (heap w ++ [im]) (files w) (dirs w) (stdout w ++ [opened_line src])))
      as [Hm|[e He]].
    + left. split; [exact Hm|]. by apply resize_icon_run.
    + right. exists e. by apply resize_icon_no_dir.
Qed.

(** A run that printed "Created icon" for every size: the source was
    opened, the directory made, and every turn succeeded. *)
Lemma resize_icon_success_inv E src dir w u w' :
  resize_icon E src dir w = (Ok u, w') ->
  stdout w' = stdout w ++ opened_line src :: map (created_line dir) sizes ->
  exists im, files w !! src = Some (ImageFile im) /\
    w' = resized_world E w src dir im /\
    forall s, s ∈ sizes ->
      attempt E ({[dir]} ∪ dirs w) im dir s = Ok (ImResize im (s, s) "LANCZOS" None).
Proof.
  intros Hrun Hout.
  destruct (resize_icon_cases E src dir w)
    as [(e & _ & Hr)|(im & Hf & Ho & [[Hm Hr]|[e Hr]])];
    rewrite Hr in Hrun; [| |discriminate].
  - injection Hrun as <- <-. cbn [set_stdout stdout] in Hout.
    apply app_inv_head in Hout. discriminate Hout.
  - injection Hrun as <- <-. exists im. split_and!; [done..|].
    cbn [resized_world stdout] in Hout. apply app_inv_head in Hout.
    apply (f_equal (drop 1)) in Hout. intros s Hs. apply log_line_created.
    by apply (map_eq_pointwise _ _ sizes Hout).
Qed.

Lemma sizes_NoDup : NoDup sizes.
Proof. apply (bool_decide_unpack _). by vm_compute. Qed.

Lemma elem_of_map_inj {A B} (f : A -> B) (l : list A) a :
  (forall x y, f x = f y -> x = y) -> f a ∈ map f l -> a ∈ l.
Proof.
  intros Hf. induction l as [|x l IH]; cbn [map]; intros H.
  - by apply elem_of_nil in H.
  - apply elem_of_cons in H as [H|H]; [apply Hf in H as ->; by left | right; by apply IH].
Qed.

Lemma NoDup_map_inj {A B} (f : A -> B) (l : list A) :
  (forall x y, f x = f y -> x = y) -> NoDup l -> NoDup (map f l).
Proof.
  intros Hf. induction 1 as [|x l Hx Hl IH]; cbn [map]; constructor; [|done].
  intros H. by apply elem_of_map_inj in H.
Qed.

Lemma icon_paths_NoDup dir : NoDup (map (icon_path dir) sizes).
Proof.
  apply NoDup_map_inj; [|apply sizes_NoDup].
  intros a b. apply icon_path_inj.
Qed.

Lemma saved_square_resized E w src dir im s :
  s ∈ sizes ->
  attempt E ({[dir]} ∪ dirs w) im dir s = Ok (ImResize im (s, s) "LANCZOS" None) ->
  files (resized_world E w src dir im) !! icon_path dir s
  = Some (ImageFile (ImResize im (s, s) "LANCZOS" None)).
Proof.
  intros Hs Ha. cbn [resized_world files]. rewrite lookup_write_all_in by done.
  unfold attempt_file. by rewrite Ha.
Qed.

Lemma lookup_scaled bp (fs : gmap string content) b s :
  s ∈ sizes ->
  write_all bp (scaled_file b) (<[icon_path bp 1024 := ImageFile b]> fs) sizes
    !! icon_path bp s
  = Some (ImageFile (if bool_decide (s = 1024) then b
                     else ImResize b (s, s) "LANCZOS" None)).
Proof.
  intros Hs. rewrite lookup_write_all_in by done. unfold scaled_file.
  case_bool_decide as H1; case_bool_decide as H2; try done.
  subst. by rewrite lookup_insert_eq.
Qed.

Lemma render_size size : im_size (render size) = (size, size).
Proof. reflexivity. Qed.

(** C1.  For every size of the fixed list, a successful run of either
    utility leaves exactly one file [icon_<size>.png] in the target
    directory and its image is [size] by [size] pixels: the renderer when
    [create_ios_icon_set] returns, the resizer when [resize_icon] has
    opened its source and printed "Created icon" for every size.  The
    thirteen paths are pairwise distinct and no other path is written. *)
Theorem every_size_one_square_file (E : Env) (w : World) :
  (forall base_path r w',
     create_ios_icon_set E base_path w = (Ok r, w') ->
     (forall s, s ∈ sizes -> saved_square w' base_path s) /\
     (forall p, (forall s, s ∈ sizes -> p <> icon_path base_path s) ->
        files w' !! p = files w !! p)) /\
  (forall src dir w',
     resize_icon E src dir w = (Ok tt, w') ->
     stdout w' = stdout w ++ opened_line src :: map (created_line dir) sizes ->
     (forall s, s ∈ sizes -> saved_square w' dir s) /\
     (forall p, (forall s, s ∈ sizes -> p <> icon_path dir s) ->
        files w' !! p = files w !! p)) /\
  (forall dir, NoDup (map (icon_path dir) sizes)).
Proof.
  split_and!.
  - intros bp r w' Hrun. apply create_ios_icon_set_inv in Hrun as (Hf & _).
    unfold saved_square. rewrite Hf. split.
    + intros s Hs. rewrite lookup_scaled by done.
      eexists. split; [reflexivity|]. by case_bool_decide; subst.
    + intros p Hp. rewrite lookup_write_all_other by done.
      apply lookup_insert_ne. intros Heq. apply (Hp 1024); [|done].
      by apply (bool_decide_unpack _).
  - intros src dir w' Hrun Hout.
    destruct (resize_icon_success_inv _ _ _ _ _ _ Hrun Hout) as (im & _ & -> & Hall).
    split.
    + intros s Hs. unfold saved_square. rewrite saved_square_resized by auto. eauto.
    + intros p Hp. cbn [resized_world files]. by apply lookup_write_all_other.
  - apply icon_paths_NoDup.
Qed.

Lemma every_size_one_square_file_witness :
  (forall s, s ∈ sizes ->
     saved_square (create_ios_icon_set no_faults "out" world_out).2 "out" s) /\
  (forall s, s ∈ sizes ->
     saved_square (resize_icon no_faults "photo.png" "out" world_photo).2 "out" s).
Proof.
  split.
  - refine (proj1 (proj1 (every_size_one_square_file no_faults world_out) "out" _ _
      (run_eta [] _ _))).
    vm_compute. reflexivity.
  - refine (proj1 (proj1 (proj2 (every_size_one_square_file no_faults world_photo))
      "photo.png" "out" _ (run_eta tt _ _) _)).
    + vm_compute. reflexivity.
    + vm_compute. reflexivity.
Defined.

(** C6.  In a successful [create_ios_icon_set] the file of 1024 holds the
    rendered base image and the file of every other size holds the Lanczos
    resize of that same base image to [(s, s)]; the run allocates the
    fifteen objects of one rendering and twelve resized copies, so nothing
    is rendered a second time. *)
Theorem scaled_from_base (E : Env) (base_path : string) (w : World)
    (r : list (Z * string)) (w' : World) :
  create_ios_icon_set E base_path w = (Ok r, w') ->
  exists base_icon,
    base_icon = render 1024 /\
    files w' !! icon_path base_path 1024 = Some (ImageFile base_icon) /\
    (forall s, s ∈ sizes -> s <> 1024 ->
       files w' !! icon_path base_path s
       = Some (ImageFile (ImResize base_icon (s, s) "LANCZOS" None))) /\
    length (heap w') = (length (heap w) + 15 + 12)%nat.
Proof.
  intros Hrun. apply create_ios_icon_set_inv in Hrun as (Hf & _ & _ & Hl & _).
  exists (render 1024). rewrite Hf. split_and!; [done| | |done].
  - rewrite lookup_scaled by (by apply (bool_decide_unpack _)). done.
  - intros s Hs Hne. rewrite lookup_scaled by done. by rewrite bool_decide_eq_false_2.
Qed.

Lemma scaled_from_base_witness :
  exists base_icon,
    base_icon = render 1024 /\
    files (create_ios_icon_set no_faults "out" world_out).2 !! icon_path "out" 1024
    = Some (ImageFile base_icon) /\
    (forall s, s ∈ sizes -> s <> 1024 ->
       files (create_ios_icon_set no_faults "out" world_out).2 !! icon_path "out" s
       = Some (ImageFile (ImResize base_icon (s, s) "LANCZOS" None))) /\
    length (heap (create_ios_icon_set no_faults "out" world_out).2)
    = (length (heap world_out) + 15 + 12)%nat.
Proof.
  refine (scaled_from_base no_faults "out" world_out _ _ (run_eta [] _ _)).
  vm_compute. reflexivity.
Defined.

(** ** Determinism of the renderer *)

Lemma create_ios_icon_set_file E bp w r w' s :
  create_ios_icon_set E bp w = (Ok r, w') -> s ∈ sizes ->
  files w' !! icon_path bp s
  = Some (ImageFile (if bool_decide (s = 1024) then render 1024
                     else ImResize (render 1024) (s, s) "LANCZOS" None)).
Proof.
  intros Hrun Hs. apply create_ios_icon_set_inv in Hrun as (Hf & _).
  rewrite Hf. by apply lookup_scaled.
Qed.

(** C3.  The renderer is deterministic: whatever the store, the disk, the
    console and the outside world, two successful calls of
    [create_voicejournal_icon] with one [size] return and save the same
    image value, and two successful calls of [create_ios_icon_set] save the
    same image for every size. *)
Theorem renderer_deterministic :
  (forall (E1 E2 : Env) (p1 p2 : string) (size : Z) (w1 w2 : World)
          (r1 r2 : ref) (w1' w2' : World),
     create_voicejournal_icon E1 p1 size w1 = (Ok r1, w1') ->
     create_voicejournal_icon E2 p2 size w2 = (Ok r2, w2') ->
     heap w1' !! r1 = Some (render size) /\
     heap w2' !! r2 = heap w1' !! r1 /\
     files w1' !! p1 = Some (ImageFile (render size)) /\
     files w2' !! p2 = files w1' !! p1) /\
  (forall (E1 E2 : Env) (bp1 bp2 : string) (w1 w2 : World)
          (r1 r2 : list (Z * string)) (w1' w2' : World),
     create_ios_icon_set E1 bp1 w1 = (Ok r1, w1') ->
     create_ios_icon_set E2 bp2 w2 = (Ok r2, w2') ->
     forall s, s ∈ sizes ->
       is_Some (files w1' !! icon_path bp1 s) /\
       files w2' !! icon_path bp2 s = files w1' !! icon_path bp1 s).
Proof.
  split.
  - intros E1 E2 p1 p2 size w1 w2 r1 r2 w1' w2' H1 H2.
    apply create_voicejournal_icon_inv in H1 as (_ & -> & -> & _).
    apply create_voicejournal_icon_inv in H2 as (_ & -> & -> & _).
    cbn [heap files]. rewrite !lookup_base, !lookup_insert_eq.
    by rewrite objects_last.
  - intros E1 E2 bp1 bp2 w1 w2 r1 r2 w1' w2' H1 H2 s Hs.
    rewrite (create_ios_icon_set_file _ _ _ _ _ _ H1 Hs).
    rewrite (create_ios_icon_set_file _ _ _ _ _ _ H2 Hs). eauto.
Qed.

Lemma renderer_deterministic_witness :
  (heap (create_voicejournal_icon no_faults "out/a.png" 64 world_out).2 !! 14%nat
   = Some (render 64) /\
   heap (create_voicejournal_icon faulty_elsewhere "b.png" 64 world_busy).2 !! 16%nat
   = heap (create_voicejournal_icon no_faults "out/a.png" 64 world_out).2 !! 14%nat /\
   files (create_voicejournal_icon no_faults "out/a.png" 64 world_out).2 !! "out/a.png"
   = Some (ImageFile (render 64)) /\
   files (create_voicejournal_icon faulty_elsewhere "b.png" 64 world_busy).2 !! "b.png"
   = files (create_voicejournal_icon no_faults "out/a.png" 64 world_out).2 !! "out/a.png") /\
  (forall s, s ∈ sizes ->
     is_Some (files (create_ios_icon_set no_faults "out" world_out).2 !! icon_path "out" s) /\
     files (create_ios_icon_set faulty_elsewhere "" world_busy).2 !! icon_path "" s
     = files (create_ios_icon_set no_faults "out" world_out).2 !! icon_path "out" s).
Proof.
  split.
  - refine (proj1 renderer_deterministic no_faults faulty_elsewhere "out/a.png" "b.png" 64
      world_out world_busy 14%nat 16%nat _ _ _ _).
    + refine (run_eta 0%nat _ _). vm_compute. reflexivity.
    + refine (run_eta 0%nat _ _). vm_compute. reflexivity.
  - refine (proj2 renderer_deterministic no_faults faulty_elsewhere "out" "" world_out world_busy
      _ _ _ _ (run_eta [] _ _) (run_eta [] _ _)).
    + vm_compute. reflexivity.
    + vm_compute. reflexivity.
Defined.

(** ** Where the notebook lines go *)

Lemma lines_with_foldl {A} c (g : A -> Image -> Image) (l : list A) v :
  (forall x v, lines_with c (g x v) = lines_with c v) ->
  lines_with c (foldl (fun v x => g x v) v l) = lines_with c v.
Proof.
  intros Hg. revert v. induction l as [|x l IH]; intros v; cbn [foldl]; [done|].
  rewrite IH. apply Hg.
Qed.

Lemma lines_with_foldl_count {A} c (g : A -> Image -> Image) (l : list A) v :
  (forall x v, lines_with c (g x v) = S (lines_with c v)) ->
  lines_with c (foldl (fun v x => g x v) v l) = (length l + lines_with c v)%nat.
Proof.
  intros Hg. revert v. induction l as [|x l IH]; intros v; cbn [foldl length]; [done|].
  rewrite IH, Hg. lia.
Qed.

Lemma gradient_image_no_notebook_line size :
  lines_with notebook_ink (gradient_image size) = 0%nat.
Proof.
  unfold gradient_image. rewrite lines_with_foldl; [done|].
  intros y v. cbn [gradient_row lines_with ink_eqb notebook_ink].
  by rewrite andb_false_r.
Qed.

Lemma page_image_no_notebook_line size :
  lines_with notebook_ink (page_image size) = 0%nat.
Proof.
  unfold page_image. rewrite lines_with_foldl; [done|].
  intros y v. cbn [page_row lines_with ink_eqb notebook_ink].
  by rewrite andb_false_r.
Qed.

Lemma wave_image_no_notebook_line size :
  lines_with notebook_ink (wave_image size) = 0%nat.
Proof. unfold wave_image. by rewrite lines_with_foldl. Qed.

(** For every [size], no [line] call with the notebook ink went into the
    image that is saved, ... *)
Lemma render_no_notebook_line size : lines_with notebook_ink (render size) = 0%nat.
Proof.
  unfold render, icon_with_glow, icon_with_page, icon_background, glow_masked_image,
    glow_image, shadow_image, shadow_shape, page_mask_image, mask_image, page_outline,
    blank.
  cbn [lines_with].
  by rewrite gradient_image_no_notebook_line, page_image_no_notebook_line,
    !wave_image_no_notebook_line.
Qed.

(** ... and all seven went into the first [icon] object, which
    [alpha_composite] had already replaced. *)
Lemma first_icon_notebook_lines size :
  lines_with notebook_ink (first_icon_final size) = 7%nat.
Proof.
  unfold first_icon_final. rewrite lines_with_foldl_count by (intros; reflexivity).
  unfold icon_background, mask_image. cbn [lines_with].
  by rewrite gradient_image_no_notebook_line.
Qed.

(** C2.  The call [create_voicejournal_icon("out/icon_1024.png", 1024)]
    saves and returns the fifteenth object it allocates; no [line] call
    with the notebook ink (200, 210, 230, 100) is part of that image.  The
    seven notebook lines are drawn on the first object, which [draw] was
    made for and which the script no longer calls [icon]. *)
Theorem notebook_lines_miss_saved_icon :
  let run := create_voicejournal_icon no_faults "out/icon_1024.png" 1024 world_out in
  run.1 = Ok 14%nat /\
  heap run.2 !! 14%nat = Some (render 1024) /\
  files run.2 !! "out/icon_1024.png"%string = Some (ImageFile (render 1024)) /\
  lines_with notebook_ink (render 1024) = 0%nat /\
  heap run.2 !! 0%nat = Some (first_icon_final 1024) /\
  lines_with notebook_ink (first_icon_final 1024) = 7%nat.
Proof.
  intros run.
  assert (Hrun : run = (Ok 14%nat,
            mkWorld (objects 1024)
              (<["out/icon_1024.png"%string := ImageFile (render 1024)]> ∅)
              {["out"%string]} [])).
  { unfold run. rewrite create_voicejournal_icon_run by lia.
    unfold mbind, M_bind, write_image, set_heap, world_out. cbn [heap files dirs stdout].
    assert (parent_exists {["out"%string]} "out/icon_1024.png" = true) as ->
      by (by vm_compute).
    reflexivity. }
  rewrite Hrun. cbn [fst snd heap files].
  split_and!; [done|done| |apply render_no_notebook_line|done
              |apply first_icon_notebook_lines].
  apply lookup_insert_eq.
Qed.

(** ** The sound wave *)

Lemma wave_image_bars size :
  rounded_rectangles (wave_image size)
  = map (fun i =>
      ([((bar_x size i - I (line_width size i) / I 2)%py,
         (wave_y size + wave_height size / I 2 - amplitude size i)%py);
        ((bar_x size i + I (line_width size i) / I 2)%py,
         (wave_y size + wave_height size / I 2 + amplitude size i)%py)],
       (I (line_width size i) / I 2)%py, bar_ink i)) [0; 1; 2; 3; 4; 5; 6].
Proof. reflexivity. Qed.

(** C8.  In the image a successful [create_voicejournal_icon] returns, the
    top layer holds seven bars; bar [i] extends from the wave's centre line
    by [max_amplitude * (1 - 0.8 * d_i^2)] up and down, [d_i = |i - 3| / 3],
    and its fill is the interpolation from (89, 65, 169) to (41, 128, 185)
    by [1 - d_i], truncated, with alpha 240; the binary64 computation gives
    the same integers as exact arithmetic. *)
Theorem wave_bars_follow_formula (E : Env) (p : string) (size : Z) (w : World)
    (r : ref) (w' : World) :
  create_voicejournal_icon E p size w = (Ok r, w') ->
  exists below wave,
    heap w' !! r = Some (ImAlphaComposite below wave) /\
    length (rounded_rectangles wave) = 7%nat /\
    forall i, 0 <= i < 7 ->
      exists x0 x1 radius,
        rounded_rectangles wave !! Z.to_nat i
        = Some ([(x0, (wave_y size + wave_height size / I 2 - spec_half_height size i)%py);
                 (x1, (wave_y size + wave_height size / I 2 + spec_half_height size i)%py)],
                radius, spec_ink i) /\
        spec_ink i = exact_ink i.
Proof.
  intros Hrun. apply create_voicejournal_icon_inv in Hrun as (_ & -> & -> & _).
  exists (icon_with_glow size), (wave_image size). cbn [heap].
  rewrite lookup_base, objects_last. split; [done|].
  rewrite wave_image_bars. split; [done|].
  intros i Hi.
  assert (i = 0 \/ i = 1 \/ i = 2 \/ i = 3 \/ i = 4 \/ i = 5 \/ i = 6) as Hcases by lia.
  destruct Hcases as [->|[->|[->|[->|[->|[->| ->]]]]]];
    eexists _, _, _; split; reflexivity.
Qed.

Lemma wave_bars_follow_formula_witness :
  exists below wave,
    heap (create_voicejournal_icon no_faults "out/icon_1024.png" 1024 world_out).2 !! 14%nat
    = Some (ImAlphaComposite below wave) /\
    length (rounded_rectangles wave) = 7%nat /\
    forall i, 0 <= i < 7 ->
      exists x0 x1 radius,
        rounded_rectangles wave !! Z.to_nat i
        = Some ([(x0, (wave_y 1024 + wave_height 1024 / I 2 - spec_half_height 1024 i)%py);
                 (x1, (wave_y 1024 + wave_height 1024 / I 2 + spec_half_height 1024 i)%py)],
                radius, spec_ink i) /\
        spec_ink i = exact_ink i.
Proof.
  refine (wave_bars_follow_formula no_faults "out/icon_1024.png" 1024 world_out
    14%nat _ _).
  refine (run_eta 0%nat _ _). vm_compute. reflexivity.
Defined.

(** ** Reading the console *)

Lemma has_char_uint c d :
  has_char c "0123456789" = false -> has_char c (NilEmpty.string_of_uint d) = false.
Proof.
  intros Hc. cbn [has_char] in Hc. repeat apply orb_false_iff in Hc as [? Hc].
  induction d; cbn [NilEmpty.string_of_uint has_char]; [done|..];
    rewrite IHd; by rewrite orb_false_r.
Qed.

Lemma has_x_str z : has_char "x" (Py.str z) = false.
Proof.
  unfold Py.str. destruct (Z.to_int z) as [d|d]; cbn [NilZero.string_of_int].
  - destruct d; try apply (has_char_uint "x" (_ _)); done.
  - cbn [has_char]. destruct d; try apply (has_char_uint "x" (_ _)); done.
Qed.

(** Two strings without [c] that are followed by [c] in one text are one
    string. *)
Lemma first_char_splits c a a' r r' :
  has_char c a = false -> has_char c a' = false ->
  a +:+ String c r = a' +:+ String c r' -> a = a'.
Proof.
  revert a'. induction a as [|x a IH]; intros [|x' a'] Ha Ha' Heq; [done|..].
  - rewrite string_app_nil, string_app_cons in Heq. injection Heq as <- _.
    cbn [has_char] in Ha'. by rewrite bool_decide_eq_true_2 in Ha'.
  - rewrite string_app_nil, string_app_cons in Heq. injection Heq as -> _.
    cbn [has_char] in Ha. by rewrite bool_decide_eq_true_2 in Ha.
  - rewrite !string_app_cons in Heq. injection Heq as -> Heq.
    cbn [has_char] in Ha, Ha'. apply orb_false_iff in Ha as [_ Ha].
    apply orb_false_iff in Ha' as [_ Ha']. f_equal. by eapply IH.
Qed.

Lemma created_line_inj dir s s' : created_line dir s = created_line dir s' -> s = s'.
Proof.
  unfold created_line. intros H. apply String.app_inj in H.
  apply str_inj. eapply (first_char_splits "x"); [apply has_x_str..|exact H].
Qed.

(** The run logged "Created icon" for [s]: the turn for [s] succeeded. *)
Lemma created_line_logged E ds im dir src s :
  created_line dir s ∈ opened_line src :: map (log_line E ds im dir) sizes ->
  s ∈ sizes /\ attempt E ds im dir s = Ok (ImResize im (s, s) "LANCZOS" None).
Proof.
  intros [H|H]%elem_of_cons; [discriminate H|].
  assert (forall l, created_line dir s ∈ map (log_line E ds im dir) l ->
            exists s', s' ∈ l /\ created_line dir s = log_line E ds im dir s') as Hmap.
  { induction l as [|x l IH]; cbn [map]; intros Hl; [by apply elem_of_nil in Hl|].
    apply elem_of_cons in Hl as [Hl|Hl].
    - exists x. split; [by left | done].
    - destruct (IH Hl) as (s' & ? & ?). exists s'. split; [by right | done]. }
  destruct (Hmap _ H) as (s' & Hs' & Heq).
  unfold log_line in Heq. destruct (attempt E ds im dir s') as [v|e] eqn:Ha.
  - apply created_line_inj in Heq as ->. split; [done|].
    by pose proof (attempt_ok_inv _ _ _ _ _ _ Ha) as [-> _].
  - symmetry in Heq. by apply error_line_not_created in Heq.
Qed.

Lemma drop_stdout {A} (l k : list A) : drop (length l) (l ++ k) = k.
Proof. by rewrite drop_app_length. Qed.

(** What [resize_icon] printed for [s] decides the file of [s]. *)
Lemma created_line_written E src dir w r w' im s :
  files w !! src = Some (ImageFile im) ->
  resize_icon E src dir w = (r, w') ->
  created_line dir s ∈ drop (length (stdout w)) (stdout w') ->
  s ∈ sizes /\
  files w' !! icon_path dir s = Some (ImageFile (ImResize im (s, s) "LANCZOS" None)).
Proof.
  intros Hf Hrun Hline.
  destruct (resize_icon_cases E src dir w)
    as [(e & Hopen & Hr)|(im' & Hf' & Ho & [[Hm Hr]|[e Hr]])];
    rewrite Hr in Hrun; injection Hrun as <- <-.
  - cbn [set_stdout stdout] in Hline. rewrite drop_stdout in Hline.
    apply list_elem_of_singleton in Hline. discriminate Hline.
  - rewrite Hf in Hf'. injection Hf' as <-.
    cbn [resized_world stdout] in Hline. rewrite drop_stdout in Hline.
    apply created_line_logged in Hline as [Hs Ha]. split; [done|].
    by apply saved_square_resized.
  - cbn [stdout] in Hline. rewrite drop_stdout in Hline.
    apply list_elem_of_singleton in Hline. discriminate Hline.
Qed.

(** C9.  Resizing keeps the dimensions of a source that already has the
    target size: when the source image is [s] by [s] for a size [s] of the
    list and [resize_icon] reports the icon of [s] as created, the file
    [icon_<s>.png] holds an image of [s] by [s] pixels, the dimensions of
    the source. *)
Theorem resize_same_size_keeps_dimensions (E : Env) (w : World) (src dir : string)
    (im : Image) (s : Z) (r : Res unit) (w' : World) :
  files w !! src = Some (ImageFile im) ->
  im_size im = (s, s) ->
  s ∈ sizes ->
  resize_icon E src dir w = (r, w') ->
  created_line dir s ∈ drop (length (stdout w)) (stdout w') ->
  exists im',
    files w' !! icon_path dir s = Some (ImageFile im') /\
    im_size im' = (s, s) /\ im_size im' = im_size im.
Proof.
  intros Hf Hsz Hs Hrun Hline.
  destruct (created_line_written _ _ _ _ _ _ _ _ Hf Hrun Hline) as [_ Hfile].
  eexists. split; [exact Hfile|]. by rewrite Hsz.
Qed.

Lemma resize_same_size_keeps_dimensions_witness :
  exists im',
    files (resize_icon no_faults "photo.png" "out" world_square).2 !! icon_path "out" 180
    = Some (ImageFile im') /\
    im_size im' = (180, 180) /\ im_size im' = im_size square180.
Proof.
  refine (resize_same_size_keeps_dimensions no_faults world_square "photo.png" "out"
    square180 180 _ _ _ _ _ (surjective_pairing _) _).
  - vm_compute. reflexivity.
  - reflexivity.
  - apply (bool_decide_unpack _). vm_compute. reflexivity.
  - apply (bool_decide_unpack _). vm_compute. reflexivity.
Defined.

(** C10.  [resize_icon] does not keep the aspect ratio: whatever the
    dimensions of the source image, the file it reports as created for a
    size [s] holds the resize of the whole source (no box, so nothing is
    cropped, and nothing is padded) to exactly [s] by [s]. *)
Theorem resize_stretches_to_square (E : Env) (w : World) (src dir : string)
    (im : Image) (s : Z) (r : Res unit) (w' : World) :
  files w !! src = Some (ImageFile im) ->
  resize_icon E src dir w = (r, w') ->
  created_line dir s ∈ drop (length (stdout w)) (stdout w') ->
  files w' !! icon_path dir s = Some (ImageFile (ImResize im (s, s) "LANCZOS" None)) /\
  im_size (ImResize im (s, s) "LANCZOS" None) = (s, s).
Proof.
  intros Hf Hrun Hline.
  by destruct (created_line_written _ _ _ _ _ _ _ _ Hf Hrun Hline) as [_ Hfile].
Qed.

Lemma resize_stretches_to_square_witness :
  im_size photo = (300, 200) /\
  files (resize_icon no_faults "photo.png" "out" world_photo).2 !! icon_path "out" 87
  = Some (ImageFile (ImResize photo (87, 87) "LANCZOS" None)) /\
  im_size (ImResize photo (87, 87) "LANCZOS" None) = (87, 87).
Proof.
  split; [reflexivity|].
  refine (resize_stretches_to_square no_faults world_photo "photo.png" "out"
    photo 87 _ _ _ (surjective_pairing _) _).
  - vm_compute. reflexivity.
  - apply (bool_decide_unpack _). vm_compute. reflexivity.
Defined.

(** C4.  When the source cannot be opened, [resize_icon] prints one line,
    "Error opening source image: ...", changes neither the disk nor the
    directories nor the store, and returns normally; the script run as
    [__main__] then prints its lines and returns normally too. *)
Theorem unopenable_source_is_reported :
  (forall (E : Env) (src dir : string) (w : World) (e : exn) (w1 : World),
     Image_open E src w = (Raise e, w1) ->
     resize_icon E src dir w
     = (Ok tt, set_stdout (stdout w ++ ["Error opening source image: " +:+ exn_str e]) w)) /\
  (forall (E : Env) (script_dir : string) (w : World) (e : exn) (w1 : World),
     Image_open E source_path w = (Raise e, w1) ->
     exists lines, lines <> [] /\
       resize_main E script_dir w = (Ok tt, set_stdout (stdout w ++ lines) w)).
Proof.
  split.
  - intros E src dir w e w1 Hopen. by eapply resize_icon_not_opened.
  - intros E script_dir w e w1 Hopen. unfold resize_main.
    erewrite bind_run by reflexivity.
    destruct (negb _).
    + eexists [_]. split; [done|]. reflexivity.
    + erewrite bind_run by (by eapply resize_icon_not_opened).
      eexists [_; _]. split; [done|]. unfold print, set_stdout.
      cbn [heap files dirs stdout]. by rewrite <- app_assoc.
Qed.

Lemma unopenable_source_is_reported_witness :
  resize_icon no_faults "notes.txt" "out" world_text
  = (Ok tt, set_stdout (stdout world_text ++ ["Error opening source image: notes.txt"])
              world_text) /\
  resize_icon no_faults "missing.png" "out" world_text
  = (Ok tt, set_stdout (stdout world_text ++ ["Error opening source image: missing.png"])
              world_text) /\
  exists lines, lines <> [] /\
    resize_main no_faults "app-icon" world_text
    = (Ok tt, set_stdout (stdout world_text ++ lines) world_text).
Proof.
  split_and!.
  - refine (proj1 unopenable_source_is_reported no_faults "notes.txt" "out" world_text
      (Exception "UnidentifiedImageError" "notes.txt") world_text _).
    vm_compute. reflexivity.
  - refine (proj1 unopenable_source_is_reported no_faults "missing.png" "out" world_text
      (Exception "FileNotFoundError" "missing.png") world_text _).
    vm_compute. reflexivity.
  - refine (proj2 unopenable_source_is_reported no_faults "app-icon" world_text
      (Exception "FileNotFoundError" source_path) world_text _).
    vm_compute. reflexivity.
Defined.

(** ** Failures at one size *)

Lemma sizes_positive s : s ∈ sizes -> (s <=? 0) = false.
Proof.
  intros Hs. assert (Forall (fun s => (s <=? 0) = false) sizes) as Hall
    by (repeat constructor).
  by eapply Forall_forall in Hall.
Qed.

Lemma log_line_shape E ds im dir s :
  log_line E ds im dir s = created_line dir s \/
  exists e, log_line E ds im dir s = error_line s e.
Proof. unfold log_line. destruct (attempt E ds im dir s); eauto. Qed.

(** [attempt] reads the outside world at its own size only. *)
Lemma attempt_local E1 E2 ds im dir s :
  resize_fault E1 im (s, s) = resize_fault E2 im (s, s) ->
  save_fault E1 (ImResize im (s, s) "LANCZOS" None) (icon_path dir s)
  = save_fault E2 (ImResize im (s, s) "LANCZOS" None) (icon_path dir s) ->
  attempt E1 ds im dir s = attempt E2 ds im dir s.
Proof. intros Hr Hs. unfold attempt. by rewrite Hr, Hs. Qed.

Lemma resized_world_file E w src dir im s :
  s ∈ sizes ->
  files (resized_world E w src dir im) !! icon_path dir s
  = match attempt E ({[dir]} ∪ dirs w) im dir s with
    | Ok v => Some (ImageFile v)
    | Raise _ => files w !! icon_path dir s
    end.
Proof.
  intros Hs. cbn [resized_world files]. rewrite lookup_write_all_in by done.
  unfold attempt_file. by destruct (attempt _ _ _ _ _).
Qed.

(** C5.  A failure while resizing or saving one size is caught and logged
    with that size, and the loop goes on.  Take two outside worlds that
    agree on what happens at size [s] and differ at will on the other
    sizes: both runs return normally, both print one line per size of the
    list, in order, each line "Created icon" or "Error creating" with its
    size, and the line and the file of [s] are the same in both runs: the
    resized image when the line is "Created icon", the file as it was
    before when it is "Error creating". *)
Theorem failures_are_isolated (E1 E2 : Env) (w : World) (src dir : string)
    (im : Image) (s : Z) :
  files w !! src = Some (ImageFile im) ->
  open_fault E1 src = None -> open_fault E2 src = None ->
  makedirs_ok E1 w dir -> makedirs_ok E2 w dir ->
  s ∈ sizes ->
  resize_fault E1 im (s, s) = resize_fault E2 im (s, s) ->
  save_fault E1 (ImResize im (s, s) "LANCZOS" None) (icon_path dir s)
  = save_fault E2 (ImResize im (s, s) "LANCZOS" None) (icon_path dir s) ->
  exists w1 w2,
    resize_icon E1 src dir w = (Ok tt, w1) /\
    resize_icon E2 src dir w = (Ok tt, w2) /\
    stdout w1 = stdout w ++ opened_line src
                  :: map (log_line E1 ({[dir]} ∪ dirs w) im dir) sizes /\
    stdout w2 = stdout w ++ opened_line src
                  :: map (log_line E2 ({[dir]} ∪ dirs w) im dir) sizes /\
    (forall E s', log_line E ({[dir]} ∪ dirs w) im dir s' = created_line dir s' \/
                  exists e, log_line E ({[dir]} ∪ dirs w) im dir s' = error_line s' e) /\
    log_line E1 ({[dir]} ∪ dirs w) im dir s = log_line E2 ({[dir]} ∪ dirs w) im dir s /\
    files w1 !! icon_path dir s = files w2 !! icon_path dir s /\
    ((log_line E1 ({[dir]} ∪ dirs w) im dir s = created_line dir s /\
      files w1 !! icon_path dir s = Some (ImageFile (ImResize im (s, s) "LANCZOS" None))) \/
     ((exists e, log_line E1 ({[dir]} ∪ dirs w) im dir s = error_line s e) /\
      files w1 !! icon_path dir s = files w !! icon_path dir s)).
Proof.
  intros Hf Ho1 Ho2 Hm1 Hm2 Hs Hr Hsv.
  exists (resized_world E1 w src dir im), (resized_world E2 w src dir im).
  pose proof (attempt_local E1 E2 ({[dir]} ∪ dirs w) im dir s Hr Hsv) as Ha.
  split_and!.
  - by apply resize_icon_run.
  - by apply resize_icon_run.
  - reflexivity.
  - reflexivity.
  - intros E s'. apply log_line_shape.
  - unfold log_line. by rewrite Ha.
  - rewrite !resized_world_file by done. by rewrite Ha.
  - rewrite resized_world_file by done. unfold log_line.
    destruct (attempt E1 _ im dir s) as [v|e] eqn:Hat.
    + left. by apply attempt_ok_inv in Hat as [-> _].
    + right. eauto.
Qed.

Lemma failures_are_isolated_witness :
  exists w1 w2,
    resize_icon no_faults "photo.png" "out" world_photo = (Ok tt, w1) /\
    resize_icon faulty "photo.png" "out" world_photo = (Ok tt, w2) /\
    stdout w1 = stdout world_photo ++ opened_line "photo.png"
                  :: map (log_line no_faults ({["out"%string]} ∪ dirs world_photo) photo "out") sizes /\
    stdout w2 = stdout world_photo ++ opened_line "photo.png"
                  :: map (log_line faulty ({["out"%string]} ∪ dirs world_photo) photo "out") sizes /\
    (forall E s', log_line E ({["out"%string]} ∪ dirs world_photo) photo "out" s'
                  = created_line "out" s' \/
                  exists e, log_line E ({["out"%string]} ∪ dirs world_photo) photo "out" s'
                            = error_line s' e) /\
    log_line no_faults ({["out"%string]} ∪ dirs world_photo) photo "out" 180
    = log_line faulty ({["out"%string]} ∪ dirs world_photo) photo "out" 180 /\
    files w1 !! icon_path "out" 180 = files w2 !! icon_path "out" 180 /\
    ((log_line no_faults ({["out"%string]} ∪ dirs world_photo) photo "out" 180
      = created_line "out" 180 /\
      files w1 !! icon_path "out" 180
      = Some (ImageFile (ImResize photo (180, 180) "LANCZOS" None))) \/
     ((exists e, log_line no_faults ({["out"%string]} ∪ dirs world_photo) photo "out" 180
                 = error_line 180 e) /\
      files w1 !! icon_path "out" 180 = files world_photo !! icon_path "out" 180)).
Proof.
  refine (failures_are_isolated no_faults faulty world_photo "photo.png" "out" photo 180
    _ _ _ _ _ _ _ _).
  - vm_compute. reflexivity.
  - reflexivity.
  - reflexivity.
  - split_and!; [discriminate | vm_compute; reflexivity | reflexivity].
  - split_and!; [discriminate | vm_compute; reflexivity | reflexivity].
  - apply (bool_decide_unpack _). vm_compute. reflexivity.
  - vm_compute. reflexivity.
  - vm_compute. reflexivity.
Defined.

(** ** Directories *)

Lemma Image_resize_dirs E r sz res W : dirs (Image_resize E r sz res W).2 = dirs W.
Proof.
  unfold Image_resize, mbind, M_bind, deref. destruct (heap W !! r); [|done].
  destruct (resize_fault E _ sz); [done|].
  by destruct ((sz.1 <=? 0) || (sz.2 <=? 0)).
Qed.

Lemma Image_save_dirs E r p W : dirs (Image_save E r p W).2 = dirs W.
Proof.
  unfold Image_save, mbind, M_bind, deref, write_image. destruct (heap W !! r); [|done].
  destruct (parent_exists (dirs W) p); [|done]. by destruct (save_fault E _ p).
Qed.

Lemma create_ios_icon_set_loop_dirs E bp base todo :
  forall paths W, dirs (create_ios_icon_set_loop E bp base todo paths W).2 = dirs W.
Proof.
  induction todo as [|s todo IH]; intros paths W; [done|].
  cbn [create_ios_icon_set_loop]. case_bool_decide; [|apply IH].
  unfold mbind, M_bind.
  pose proof (Image_resize_dirs E base (s, s) "LANCZOS" W) as Hr.
  destruct (Image_resize E base (s, s) "LANCZOS" W) as [[r1|e] W1]; [|done].
  cbn [snd] in Hr.
  pose proof (Image_save_dirs E r1
    (os_path_join bp ("icon_" +:+ Py.str s +:+ ".png")) W1) as Hs.
  destruct (Image_save E r1 _ W1) as [[u|e] W2]; cbn [snd] in *; [|congruence].
  rewrite IH. congruence.
Qed.

(** The renderer never touches the directories. *)
Lemma create_ios_icon_set_dirs E bp w : dirs (create_ios_icon_set E bp w).2 = dirs w.
Proof.
  unfold create_ios_icon_set. unfold mbind at 1. unfold M_bind at 1.
  rewrite create_voicejournal_icon_run by lia.
  unfold mbind, M_bind, write_image, set_heap. cbn [heap files dirs stdout].
  destruct (parent_exists (dirs w) _); [|done].
  destruct (save_fault E _ _); [done|].
  cbn [mret M_ret]. by rewrite create_ios_icon_set_loop_dirs.
Qed.

(** Without the directory, the first save of the renderer fails. *)
Lemma create_ios_icon_set_no_dir E bp w :
  parent_exists (dirs w) (icon_path bp 1024) = false ->
  create_ios_icon_set E bp w
  = (Raise (Exception "FileNotFoundError" (icon_path bp 1024)),
     set_heap (heap w ++ objects 1024) w).
Proof.
  intros Hp. unfold create_ios_icon_set. unfold mbind at 1. unfold M_bind at 1.
  rewrite create_voicejournal_icon_run by lia.
  unfold mbind, M_bind, write_image, set_heap. cbn [heap files dirs stdout].
  change (os_path_join bp "icon_1024.png") with (icon_path bp 1024).
  by rewrite Hp.
Qed.

(** C7, as the code has it.  The resizer makes the output directory before
    it writes: once the source is open and [os.makedirs] has succeeded, the
    directory exists, every per-size file has an existing parent, and a
    size that meets no failure from outside is written.  The renderer makes
    no directory: it never changes the set of directories, and when
    [base_path] names none, its first save raises [FileNotFoundError],
    which leaves [create_ios_icon_set] with no file written. *)
Theorem directory_made_by_resizer_only :
  (forall (E : Env) (w : World) (src dir : string) (im : Image),
     files w !! src = Some (ImageFile im) -> open_fault E src = None ->
     makedirs_ok E w dir ->
     exists w',
       resize_icon E src dir w = (Ok tt, w') /\ dir ∈ dirs w' /\
       forall s, s ∈ sizes ->
         parent_exists (dirs w') (icon_path dir s) = true /\
         (resize_fault E im (s, s) = None ->
          save_fault E (ImResize im (s, s) "LANCZOS" None) (icon_path dir s) = None ->
          files w' !! icon_path dir s
          = Some (ImageFile (ImResize im (s, s) "LANCZOS" None)))) /\
  (forall (E : Env) (w : World) (base_path : string),
     dirs (create_ios_icon_set E base_path w).2 = dirs w) /\
  (forall (E : Env) (w : World) (base_path : string),
     parent_exists (dirs w) (icon_path base_path 1024) = false ->
     create_ios_icon_set E base_path w
     = (Raise (Exception "FileNotFoundError" (icon_path base_path 1024)),
        set_heap (heap w ++ objects 1024) w)).
Proof.
  split_and!.
  - intros E w src dir im Hf Ho Hm. exists (resized_world E w src dir im).
    assert (dir ∈ dirs (resized_world E w src dir im)) as Hin
      by (cbn [resized_world dirs]; set_solver).
    split_and!; [by apply resize_icon_run | done |].
    intros s Hs. split; [by apply parent_exists_icon_path|].
    intros Hr Hsv. rewrite resized_world_file by done.
    unfold attempt. rewrite Hr, (sizes_positive _ Hs), Hsv.
    by rewrite parent_exists_icon_path.
  - intros E w bp. apply create_ios_icon_set_dirs.
  - intros E w bp Hp. by apply create_ios_icon_set_no_dir.
Qed.

Lemma directory_made_by_resizer_only_witness :
  (exists w',
     resize_icon no_faults "photo.png" "out" world_photo = (Ok tt, w') /\
     "out"%string ∈ dirs w' /\
     forall s, s ∈ sizes ->
       parent_exists (dirs w') (icon_path "out" s) = true /\
       (resize_fault no_faults photo (s, s) = None ->
        save_fault no_faults (ImResize photo (s, s) "LANCZOS" None) (icon_path "out" s) = None ->
        files w' !! icon_path "out" s
        = Some (ImageFile (ImResize photo (s, s) "LANCZOS" None)))) /\
  create_ios_icon_set no_faults "out" world_bare
  = (Raise (Exception "FileNotFoundError" (icon_path "out" 1024)),
     set_heap (heap world_bare ++ objects 1024) world_bare).
Proof.
  split.
  - refine (proj1 directory_made_by_resizer_only no_faults world_photo "photo.png" "out"
      photo _ _ _).
    + vm_compute. reflexivity.
    + reflexivity.
    + split_and!; [discriminate | vm_compute; reflexivity | reflexivity].
  - refine (proj2 (proj2 directory_made_by_resizer_only) no_faults world_bare "out" _).
    vm_compute. reflexivity.
Defined.

(** C7, as the claim words it, fails for the renderer: on a disk where
    nothing fails from outside and the directory ["out"] is absent,
    [create_ios_icon_set("out")] does not make it; the write of
    [out/icon_1024.png] fails and no file exists afterwards. *)
Lemma renderer_does_not_make_directory :
  fst (create_ios_icon_set no_faults "out" world_bare)
  = Raise (Exception "FileNotFoundError" "out/icon_1024.png") /\
  ("out" ∉ dirs (snd (create_ios_icon_set no_faults "out" world_bare))) /\
  files (snd (create_ios_icon_set no_faults "out" world_bare)) = ∅.
Proof.
  rewrite create_ios_icon_set_no_dir by (by vm_compute).
  cbn [fst snd set_heap dirs files world_bare]. split_and!; [done| |done].
  set_solver.
Qed.

(** * Further properties of the two scripts *)

(** ** One resize-and-save *)

(** The two statements [base.resize((s, s), LANCZOS)] and [.save(path)],
    followed by [k]: they go as [attempt] says. *)
Lemma scale_turn {A} E base b bp s (k : M A) W :
  heap W !! base = Some b ->
  (scaled_icon ← Image_resize E base (s, s) "LANCZOS";
   Image_save E scaled_icon (icon_path bp s);; k) W
  = match attempt E (dirs W) b bp s with
    | Ok v => k (mkWorld (heap W ++ [v]) (<[icon_path bp s := ImageFile v]> (files W))
                   (dirs W) (stdout W))
    | Raise e => (Raise e, mkWorld (heap W ++ attempt_objects E b s) (files W)
                             (dirs W) (stdout W))
    end.
Proof.
  intros Hb. destruct W as [h fs ds out]. cbn [heap files dirs stdout] in *.
  unfold attempt, attempt_objects.
  unfold mbind at 1. unfold M_bind at 1.
  rewrite (Image_resize_run E base b) by done.
  destruct (resize_fault E b (s, s)) as [e|] eqn:Hrf.
  { by rewrite app_nil_r. }
  cbn [fst snd]. rewrite orb_diag. destruct (s <=? 0) eqn:Hs.
  { by rewrite app_nil_r. }
  unfold mbind at 1. unfold M_bind at 1.
  erewrite Image_save_run by (rewrite lookup_app_r by lia; by rewrite Nat.sub_diag).
  unfold write_image. cbn [dirs].
  destruct (parent_exists ds (icon_path bp s)); [|done].
  destruct (save_fault E _ (icon_path bp s)); done.
Qed.

(** The loop of [create_ios_icon_set], one size at a time. *)
Lemma create_ios_icon_set_loop_cons E bp base b s todo paths W :
  heap W !! base = Some b ->
  create_ios_icon_set_loop E bp base (s :: todo) paths W
  = if bool_decide (s ≠ 1024) then
      match attempt E (dirs W) b bp s with
      | Ok v =>
          create_ios_icon_set_loop E bp base todo (dict_set paths s (icon_path bp s))
            (mkWorld (heap W ++ [v]) (<[icon_path bp s := ImageFile v]> (files W))
               (dirs W) (stdout W))
      | Raise e => (Raise e, mkWorld (heap W ++ attempt_objects E b s) (files W)
                               (dirs W) (stdout W))
      end
    else create_ios_icon_set_loop E bp base todo paths W.
Proof.
  intros Hb. cbn [create_ios_icon_set_loop]. case_bool_decide; [|done].
  by apply (scale_turn E base b bp s).
Qed.

Lemma attempt_ok_iff E ds b bp s :
  is_ok (attempt E ds b bp s) = true <->
  resize_fault E b (s, s) = None /\ 0 < s /\
  parent_exists ds (icon_path bp s) = true /\
  save_fault E (ImResize b (s, s) "LANCZOS" None) (icon_path bp s) = None.
Proof.
  unfold attempt. destruct (resize_fault E b (s, s)); [by split; [|intros (?&?)]|].
  destruct (Z.leb_spec s 0); [split; [done | intros (_ & ? & _); lia]|].
  destruct (parent_exists ds (icon_path bp s)); [|split; [done | by intros (_ & _ & ? & _)]].
  destruct (save_fault E _ _); [split; [done | by intros (_ & _ & _ & ?)]|].
  done.
Qed.

Lemma attempt_ok_value E ds b bp s :
  is_ok (attempt E ds b bp s) = true ->
  attempt E ds b bp s = Ok (ImResize b (s, s) "LANCZOS" None).
Proof.
  destruct (attempt E ds b bp s) as [v|e] eqn:Ha; [|done]. intros _.
  by apply attempt_ok_inv in Ha as [-> _].
Qed.

(** ** The loop of [create_ios_icon_set] in every outcome *)

(** The loop completes exactly when every turn does. *)
Lemma create_ios_icon_set_loop_ok_iff E bp base b todo :
  forall paths W, heap W !! base = Some b ->
  is_ok (create_ios_icon_set_loop E bp base todo paths W).1 = true <->
  (forall s, s ∈ todo -> s ≠ 1024 -> is_ok (attempt E (dirs W) b bp s) = true).
Proof.
  induction todo as [|s todo IH]; intros paths W Hb.
  - split; [|done]. intros _ s Hs. by apply elem_of_nil in Hs.
  - rewrite (create_ios_icon_set_loop_cons _ _ _ b) by done. case_bool_decide as Hs.
    + destruct (attempt E (dirs W) b bp s) as [v|e] eqn:Ha.
      * rewrite IH by (cbn [heap]; by apply lookup_app_l_Some). cbn [dirs]. split.
        -- intros H s' [->|Hs']%elem_of_cons Hne; [by rewrite Ha | by apply H].
        -- intros H s' Hs' Hne. apply H; [by right | done].
      * split; [done|]. intros H. specialize (H s (list_elem_of_here _ _) Hs).
        by rewrite Ha in H.
    + rewrite IH by done. split.
      * intros H s' [->|Hs']%elem_of_cons Hne; [done | by apply H].
      * intros H s' Hs' Hne. apply H; [by right | done].
Qed.

(** Whatever the outcome, the loop prints nothing, and every path is as it
    was or is the file of a size of the list and holds the resized base. *)
Lemma create_ios_icon_set_loop_any E bp base b todo :
  forall paths W, heap W !! base = Some b ->
  stdout (create_ios_icon_set_loop E bp base todo paths W).2 = stdout W /\
  dirs (create_ios_icon_set_loop E bp base todo paths W).2 = dirs W /\
  forall p,
    files (create_ios_icon_set_loop E bp base todo paths W).2 !! p = files W !! p \/
    exists s, s ∈ todo /\ s ≠ 1024 /\ p = icon_path bp s /\
      files (create_ios_icon_set_loop E bp base todo paths W).2 !! p
      = Some (ImageFile (ImResize b (s, s) "LANCZOS" None)).
Proof.
  induction todo as [|s todo IH]; intros paths W Hb.
  - split_and!; [done..|]. by left.
  - rewrite (create_ios_icon_set_loop_cons _ _ _ b) by done. case_bool_decide as Hs.
    + destruct (attempt E (dirs W) b bp s) as [v|e] eqn:Ha; [|split_and!; [done..| by left]].
      apply attempt_ok_inv in Ha as [-> _].
      edestruct IH as (Hout & Hdirs & Hfiles);
        [|split_and!; [rewrite Hout; reflexivity|rewrite Hdirs; reflexivity|]].
      { cbn [heap]. by apply lookup_app_l_Some. }
      intros p. destruct (Hfiles p) as [Heq|(s' & Hs' & Hne & -> & Hfile)].
      * cbn [files] in Heq. destruct (decide (p = icon_path bp s)) as [->|Hp].
        -- right. exists s. split_and!; [by left|done|done|].
           by rewrite Heq, lookup_insert_eq.
        -- left. by rewrite Heq, lookup_insert_ne.
      * right. exists s'. split_and!; [by right|done..].
    + destruct (IH paths W Hb) as (Hout & Hdirs & Hfiles). split_and!; [done..|].
      intros p. destruct (Hfiles p) as [Heq|(s' & Hs' & Hne & -> & Hfile)]; [by left|].
      right. exists s'. split_and!; [by right|done..].
Qed.

(** A loop that completes returns the [dict] with one more entry per size
    other than 1024. *)
Lemma create_ios_icon_set_loop_paths E bp base b todo :
  forall paths W r W', heap W !! base = Some b ->
  create_ios_icon_set_loop E bp base todo paths W = (Ok r, W') ->
  r = foldl (fun d s => if bool_decide (s ≠ 1024) then dict_set d s (icon_path bp s) else d)
        paths todo.
Proof.
  induction todo as [|s todo IH]; intros paths W r W' Hb Hrun.
  - cbn in Hrun. by injection Hrun as <- _.
  - rewrite (create_ios_icon_set_loop_cons _ _ _ b) in Hrun by done. cbn [foldl].
    case_bool_decide as Hs; [|by eapply IH].
    destruct (attempt E (dirs W) b bp s) as [v|e]; [|done].
    eapply IH; [|exact Hrun]. cbn [heap]. by apply lookup_app_l_Some.
Qed.


(** ** Paths of one directory *)

(** Two directories that give one entry the same path give every entry the
    same path. *)
Lemma os_path_join_same_dir d d' n n' :
  starts_with_slash n = false -> starts_with_slash n' = false ->
  os_path_join d n = os_path_join d' n -> os_path_join d n' = os_path_join d' n'.
Proof.
  intros Hn Hn'. unfold os_path_join. rewrite Hn, Hn'.
  destruct (bool_decide (d = ""%string) || ends_with_slash d),
    (bool_decide (d' = ""%string) || ends_with_slash d'); intros H.
  - apply string_app_inv_tail in H. by subst.
  - rewrite <- string_app_assoc in H. apply string_app_inv_tail in H. subst.
    by rewrite string_app_assoc.
  - rewrite <- string_app_assoc in H. apply string_app_inv_tail in H. subst.
    by rewrite string_app_assoc.
  - rewrite <- !string_app_assoc in H. apply string_app_inv_tail in H.
    apply string_app_inv_tail in H. by subst.
Qed.

Lemma is_parent_icon_path_iff d bp s :
  is_parent d (icon_path bp s) = true <->
  os_path_join d (icon_name s) = os_path_join bp (icon_name s).
Proof.
  unfold is_parent, icon_path. rewrite basename_join by apply icon_name_no_slash.
  rewrite bool_decide_eq_false_2 by apply icon_name_nonempty. cbn [negb andb].
  apply bool_decide_eq_true.
Qed.

(** The directory of one icon file is the directory of all of them. *)
Lemma parent_exists_any_size (ds : gset string) bp s s' :
  parent_exists ds (icon_path bp s) = true -> parent_exists ds (icon_path bp s') = true.
Proof.
  unfold parent_exists. rewrite !bool_decide_eq_true. intros (d & Hd & Hp).
  exists d. split; [done|]. apply is_parent_icon_path_iff.
  apply is_parent_icon_path_iff in Hp.
  eapply os_path_join_same_dir; [| |exact Hp];
    apply prefix_slash_no_slash, icon_name_no_slash.
Qed.

Lemma string_app_self a x : a +:+ x = a -> x = ""%string.
Proof.
  induction a as [|c a IH]; [by rewrite string_app_nil|].
  rewrite string_app_cons. intros [= H]. by apply IH.
Qed.

(** An icon file is not the directory it lies in. *)
Lemma icon_path_not_dir d s : icon_path d s <> d.
Proof.
  unfold icon_path, os_path_join.
  rewrite (prefix_slash_no_slash _ (icon_name_no_slash s)).
  destruct (bool_decide (d = ""%string) || ends_with_slash d); intros H.
  - by apply string_app_self in H.
  - by apply string_app_self in H.
Qed.

(** ** [create_voicejournal_icon] in every outcome *)

Lemma create_voicejournal_icon_cases E p size w :
  0 <= size ->
  create_voicejournal_icon E p size w
  = if parent_exists (dirs w) p then
      match save_fault E (render size) p with
      | Some e => (Raise e, set_heap (heap w ++ objects size) w)
      | None =>
          (Ok (length (heap w) + 14)%nat,
           mkWorld (heap w ++ objects size) (<[p := ImageFile (render size)]> (files w))
             (dirs w) (stdout w))
      end
    else (Raise (Exception "FileNotFoundError" p), set_heap (heap w ++ objects size) w).
Proof.
  intros Hs. rewrite create_voicejournal_icon_run by done.
  destruct w as [h fs ds out]. unfold mbind, M_bind, write_image, set_heap.
  cbn [heap files dirs stdout]. destruct (parent_exists ds p); [|done].
  by destruct (save_fault E (render size) p).
Qed.

(** ** [create_ios_icon_set] in every outcome *)

Lemma create_ios_icon_set_run E bp w :
  create_ios_icon_set E bp w
  = if parent_exists (dirs w) (icon_path bp 1024) then
      match save_fault E (render 1024) (icon_path bp 1024) with
      | Some e => (Raise e, set_heap (heap w ++ objects 1024) w)
      | None =>
          create_ios_icon_set_loop E bp (length (heap w) + 14)%nat sizes
            [(1024, icon_path bp 1024)]
            (mkWorld (heap w ++ objects 1024)
               (<[icon_path bp 1024 := ImageFile (render 1024)]> (files w))
               (dirs w) (stdout w))
      end
    else (Raise (Exception "FileNotFoundError" (icon_path bp 1024)),
          set_heap (heap w ++ objects 1024) w).
Proof.
  unfold create_ios_icon_set, mbind, M_bind.
  change (os_path_join bp "icon_1024.png") with (icon_path bp 1024).
  rewrite create_voicejournal_icon_cases by done.
  destruct (parent_exists (dirs w) (icon_path bp 1024)); [|done].
  by destruct (save_fault E (render 1024) (icon_path bp 1024)).
Qed.

Lemma base_icon_in_store (h : list Image) size :
  (h ++ objects size) !! (length h + 14)%nat = Some (render size).
Proof. rewrite lookup_base. apply objects_last. Qed.

Lemma for_print_run {A} (l : list A) (f : A -> string) (body : A -> M unit) :
  (forall x W, body x W = (Ok tt, set_stdout (stdout W ++ [f x]) W)) ->
  forall W, for_ l body W = (Ok tt, set_stdout (stdout W ++ map f l) W).
Proof.
  intros Hb. induction l as [|x l IH]; intros W.
  - cbn [for_ map]. rewrite app_nil_r. by destruct W.
  - cbn [for_ map]. erewrite bind_run by apply Hb. rewrite IH.
    destruct W as [h fs ds out]. unfold set_stdout. cbn [heap files dirs stdout].
    by rewrite <- app_assoc.
Qed.

(** The [dict] the loop of [create_ios_icon_set] builds, for any naming of
    the files. *)
Lemma dict_of_sizes (f : Z -> string) :
  foldl (fun d s => if bool_decide (s ≠ 1024) then dict_set d s (f s) else d)
    [(1024, f 1024)] sizes
  = map (fun s => (s, f s)) sizes.
Proof. vm_compute. reflexivity. Qed.

Lemma map_fst_pairs {A B} (f : A -> B) (l : list A) : map fst (map (fun s => (s, f s)) l) = l.
Proof. induction l as [|x l IH]; [done|]. cbn [map fst]. by rewrite IH. Qed.

(** The [dict] returned by a successful [create_ios_icon_set]. *)
Lemma create_ios_icon_set_paths E bp w r w' :
  create_ios_icon_set E bp w = (Ok r, w') -> r = all_icon_paths bp.
Proof.
  intros Hrun. rewrite create_ios_icon_set_run in Hrun.
  destruct (parent_exists (dirs w) (icon_path bp 1024)); [|discriminate Hrun].
  destruct (save_fault E (render 1024) (icon_path bp 1024)); [discriminate Hrun|].
  eapply create_ios_icon_set_loop_paths in Hrun; [|apply base_icon_in_store].
  by rewrite (dict_of_sizes (icon_path bp)) in Hrun.
Qed.

(** The console, the directories and the files after any run of
    [create_ios_icon_set]. *)
Lemma create_ios_icon_set_any E bp w :
  stdout (create_ios_icon_set E bp w).2 = stdout w /\
  dirs (create_ios_icon_set E bp w).2 = dirs w /\
  forall p,
    files (create_ios_icon_set E bp w).2 !! p = files w !! p \/
    exists s, s ∈ sizes /\ p = icon_path bp s /\
      files (create_ios_icon_set E bp w).2 !! p
      = Some (ImageFile (if bool_decide (s = 1024) then render 1024
                         else ImResize (render 1024) (s, s) "LANCZOS" None)).
Proof.
  rewrite create_ios_icon_set_run.
  destruct (parent_exists (dirs w) (icon_path bp 1024));
    [|split_and!; [done..|by left]].
  destruct (save_fault E (render 1024) (icon_path bp 1024));
    [split_and!; [done..|by left]|].
  destruct (create_ios_icon_set_loop_any E bp (length (heap w) + 14)%nat
    (render 1024) sizes [(1024, icon_path bp 1024)]
    (mkWorld (heap w ++ objects 1024)
       (<[icon_path bp 1024 := ImageFile (render 1024)]> (files w))
       (dirs w) (stdout w)) (base_icon_in_store _ _)) as (Hout & Hdirs & Hfiles).
  split_and!; [exact Hout|exact Hdirs|]. intros p.
  destruct (Hfiles p) as [Heq|(s & Hs & Hne & -> & Hfile)].
  - cbn [files] in Heq. destruct (decide (p = icon_path bp 1024)) as [->|Hp].
    + right. exists 1024. split_and!; [by apply (bool_decide_unpack _)|done|].
      by rewrite Heq, lookup_insert_eq.
    + left. by rewrite Heq, lookup_insert_ne.
  - right. exists s. split_and!; [done..|]. by rewrite Hfile, bool_decide_eq_false_2.
Qed.

(** ** [resize_icon] in every outcome *)




(** Every path after [write_all] is as it was or was written for a size of
    the list. *)
Lemma lookup_write_all_cases d g (l : list Z) :
  forall (fs : gmap string content) p,
  write_all d g fs l !! p = fs !! p \/
  exists s c, s ∈ l /\ p = icon_path d s /\ g s = Some c /\
    write_all d g fs l !! p = Some c.
Proof.
  induction l as [|x l IH]; intros fs p; [by left|].
  change (write_all d g fs (x :: l))
    with (write_all d g (match g x with Some c => <[icon_path d x := c]> fs | None => fs end) l).
  destruct (IH (match g x with Some c => <[icon_path d x := c]> fs | None => fs end) p)
    as [Heq|(s & c & Hs & -> & Hg & Hl)].
  - rewrite Heq. destruct (g x) as [c|] eqn:Hg; [|by left].
    destruct (decide (p = icon_path d x)) as [->|Hp].
    + right. exists x, c. split_and!; [by left|done..|by rewrite lookup_insert_eq].
    + left. by rewrite lookup_insert_ne.
  - right. exists s, c. split_and!; [by right|done..].
Qed.

(** Writing the same files a second time changes nothing. *)
Lemma write_all_twice d g (fs : gmap string content) l :
  write_all d g (write_all d g fs l) l = write_all d g fs l.
Proof.
  apply map_eq. intros p.
  destruct (lookup_write_all_cases d g l (write_all d g fs l) p)
    as [Heq|(s & c & Hs & -> & Hg & Hl)]; [done|].
  rewrite Hl. rewrite lookup_write_all_in by done. by rewrite Hg.
Qed.


(** * The renderer beyond the successful run *)



(** X2.  [create_ios_icon_set] returns exactly when the directory of
    [icon_1024.png] exists and neither the save of the base icon nor the
    resize and save of any other size fails from outside.  Nothing else can
    make it raise: the sizes are positive and one directory holds all the
    files. *)
Theorem icon_set_succeeds_iff (E : Env) (base_path : string) (w : World) :
  is_ok (create_ios_icon_set E base_path w).1 = true <->
  parent_exists (dirs w) (icon_path base_path 1024) = true /\
  save_fault E (render 1024) (icon_path base_path 1024) = None /\
  (forall s, s ∈ sizes -> s <> 1024 ->
     resize_fault E (render 1024) (s, s) = None /\
     save_fault E (ImResize (render 1024) (s, s) "LANCZOS" None)
       (icon_path base_path s) = None).
Proof.
  rewrite create_ios_icon_set_run.
  destruct (parent_exists (dirs w) (icon_path base_path 1024)) eqn:Hpar;
    [|split; [done | by intros (? & _)]].
  destruct (save_fault E (render 1024) (icon_path base_path 1024)) eqn:Hsave;
    [split; [done | by intros (_ & ? & _)]|].
  rewrite (create_ios_icon_set_loop_ok_iff _ _ _ (render 1024))
    by apply base_icon_in_store.
  cbn [dirs]. split.
  - intros H. split_and!; [done..|]. intros s Hs Hne.
    by apply H, attempt_ok_iff in Hs as (? & _ & _ & ?).
  - intros (_ & _ & H) s Hs Hne. apply attempt_ok_iff.
    destruct (H s Hs Hne) as [Hr Hw]. split_and!; [done| |by eapply parent_exists_any_size|done].
    apply sizes_positive in Hs. lia.
Qed.

Lemma icon_set_succeeds_iff_witness :
  is_ok (create_ios_icon_set no_faults "out" world_out).1 = true /\
  is_ok (create_ios_icon_set faulty "out" world_out).1 <> true.
Proof.
  split.
  - apply (icon_set_succeeds_iff no_faults "out" world_out).
    split_and!; [by vm_compute..|done].
  - intros H. apply (icon_set_succeeds_iff faulty "out" world_out) in H as (_ & _ & H).
    destruct (H 87) as [Hr _]; [by apply (bool_decide_unpack _)|done|].
    discriminate Hr.
Defined.

(** X3.  The [dict] a successful [create_ios_icon_set] returns has one
    entry per size, in the order of the list [sizes], and maps each size to
    the path of its file. *)
Theorem icon_set_returns_every_path (E : Env) (base_path : string) (w : World)
    (icon_paths : list (Z * string)) (w' : World) :
  create_ios_icon_set E base_path w = (Ok icon_paths, w') ->
  icon_paths = all_icon_paths base_path /\
  map fst icon_paths = sizes /\
  (forall size path, (size, path) ∈ icon_paths ->
     path = icon_path base_path size /\ is_Some (files w' !! path)).
Proof.
  intros Hrun.
  assert (forall s, s ∈ sizes -> is_Some (files w' !! icon_path base_path s)) as Hfiles.
  { intros s Hs. rewrite (create_ios_icon_set_file _ _ _ _ _ _ Hrun Hs). eauto. }
  apply create_ios_icon_set_paths in Hrun as ->.
  split_and!; [reflexivity|apply map_fst_pairs|].
  intros size path (s & [= -> ->] & Hs)%list_elem_of_fmap.
  split; [reflexivity|]. by apply Hfiles.
Qed.

Lemma icon_set_returns_every_path_witness :
  result_or [] (create_ios_icon_set no_faults "out" world_out).1 = all_icon_paths "out".
Proof.
  refine (proj1 (icon_set_returns_every_path no_faults "out" world_out _ _
    (run_eta [] _ _))).
  vm_compute. reflexivity.
Defined.




(** X6.  Run as a script, [create_icon.py] prints the line "Created icon set
    at: ..." and then one line "Icon <s>x<s>px: <path>" per size, in the
    order of the list [sizes], when the icon set could be created; when it
    could not, the exception leaves the script and not a single line is
    printed. *)
Theorem main_lists_every_icon (E : Env) (script_dir : string) (w : World) :
  (forall icons w1,
     create_ios_icon_set E script_dir w = (Ok icons, w1) ->
     create_icon_main E script_dir w
     = (Ok tt,
        set_stdout (stdout w ++ ("Created icon set at: " +:+ script_dir)
                      :: map icon_line (all_icon_paths script_dir)) w1)) /\
  (forall e w1,
     create_ios_icon_set E script_dir w = (Raise e, w1) ->
     create_icon_main E script_dir w = (Raise e, w1) /\ stdout w1 = stdout w).
Proof.
  split.
  - intros icons w1 Hrun.
    pose proof (create_ios_icon_set_paths _ _ _ _ _ Hrun) as ->.
    pose proof (proj1 (create_ios_icon_set_any E script_dir w)) as Hout.
    unfold create_icon_main. rewrite (bind_run _ _ _ _ _ Hrun).
    rewrite Hrun in Hout. cbn [snd] in Hout. clear Hrun.
    erewrite bind_run by reflexivity.
    rewrite (for_print_run _ icon_line) by (by intros [size path] W).
    destruct w1 as [h fs ds out]. unfold set_stdout. cbn [heap files dirs stdout] in *.
    by rewrite Hout, <- app_assoc.
  - intros e w1 Hrun.
    pose proof (proj1 (create_ios_icon_set_any E script_dir w)) as Hout.
    rewrite Hrun in Hout. split; [|exact Hout].
    unfold create_icon_main, mbind, M_bind. by rewrite Hrun.
Qed.

Lemma main_lists_every_icon_witness :
  stdout (create_icon_main no_faults "out" world_out).2
  = ["Created icon set at: out"; "Icon 1024x1024px: out/icon_1024.png";
     "Icon 180x180px: out/icon_180.png"; "Icon 167x167px: out/icon_167.png";
     "Icon 152x152px: out/icon_152.png"; "Icon 120x120px: out/icon_120.png";
     "Icon 87x87px: out/icon_87.png"; "Icon 80x80px: out/icon_80.png";
     "Icon 76x76px: out/icon_76.png"; "Icon 60x60px: out/icon_60.png";
     "Icon 58x58px: out/icon_58.png"; "Icon 40x40px: out/icon_40.png";
     "Icon 29x29px: out/icon_29.png"; "Icon 20x20px: out/icon_20.png"]%string /\
  stdout (create_icon_main no_faults "out" world_bare).2 = [].
Proof.
  split.
  - assert (is_ok (create_ios_icon_set no_faults "out" world_out).1 = true) as Hok
      by (vm_compute; reflexivity).
    rewrite (proj1 (main_lists_every_icon no_faults "out" world_out) _ _
      (run_eta [] _ Hok)).
    reflexivity.
  - assert (is_ok (create_ios_icon_set no_faults "out" world_bare).1 = false) as Hfail
      by (vm_compute; reflexivity).
    destruct (create_ios_icon_set no_faults "out" world_bare) as [[icons|e] w1] eqn:Hrun;
      [discriminate Hfail|].
    destruct (proj2 (main_lists_every_icon no_faults "out" world_bare) e w1 Hrun)
      as [-> Hout].
    exact Hout.
Defined.

(** * The resizer beyond the run that creates every icon *)




(** X9.  A second run of [resize_icon] on the disk the first one left,
    under the same outside conditions, returns too and leaves files and
    directories exactly as the first run left them, and prints the same
    lines again, when the source is not one of the thirteen icon files.  *)
Theorem resizer_rerun_same_disk (E : Env) (src dir : string) (w : World) (im : Image) :
  files w !! src = Some (ImageFile im) -> open_fault E src = None ->
  makedirs_ok E w dir ->
  (forall s, s ∈ sizes -> src <> icon_path dir s) ->
  exists w1 w2 lines,
    resize_icon E src dir w = (Ok tt, w1) /\
    resize_icon E src dir w1 = (Ok tt, w2) /\
    files w2 = files w1 /\ dirs w2 = dirs w1 /\
    stdout w1 = stdout w ++ lines /\ stdout w2 = stdout w1 ++ lines.
Proof.
  intros Hf Ho Hm Hsrc.
  assert (makedirs_ok E (resized_world E w src dir im) dir) as Hm1.
  { destruct Hm as (Hne & Hd & Hfault). split_and!; [done| |done].
    cbn [resized_world files]. rewrite lookup_write_all_other; [done|].
    intros s _ Heq. by apply (icon_path_not_dir dir s). }
  assert (files (resized_world E w src dir im) !! src = Some (ImageFile im)) as Hf1.
  { cbn [resized_world files]. by rewrite lookup_write_all_other. }
  exists (resized_world E w src dir im),
    (resized_world E (resized_world E w src dir im) src dir im),
    (opened_line src :: map (log_line E ({[dir]} ∪ dirs w) im dir) sizes).
  assert ({[dir]} ∪ dirs (resized_world E w src dir im) = {[dir]} ∪ dirs w) as Hdirs.
  { cbn [resized_world dirs]. by rewrite (assoc_L (∪)), (idemp_L (∪)). }
  split_and!; [by apply resize_icon_run..| | |done|].
  - cbn [resized_world files dirs] in *. rewrite Hdirs. apply write_all_twice.
  - cbn [resized_world dirs] in *. exact Hdirs.
  - cbn [resized_world stdout dirs] in *. by rewrite Hdirs.
Qed.

Lemma resizer_rerun_same_disk_witness :
  exists w1 w2 lines,
    resize_icon faulty "photo.png" "out" world_photo = (Ok tt, w1) /\
    resize_icon faulty "photo.png" "out" w1 = (Ok tt, w2) /\
    files w2 = files w1 /\ dirs w2 = dirs w1 /\
    stdout w1 = stdout world_photo ++ lines /\ stdout w2 = stdout w1 ++ lines.
Proof.
  apply (resizer_rerun_same_disk faulty "photo.png" "out" world_photo photo).
  - reflexivity.
  - reflexivity.
  - by split_and!.
  - intros s Hs. repeat (apply elem_of_cons in Hs as [->|Hs]); [by vm_compute..|].
    by apply elem_of_nil in Hs.
Defined.

(** X10.  Run as a script, [create_icon_from_source.py] prints only "Source
    image not found at: ..." and changes nothing else when the source path
    does not exist.  When the path exists, "Icon generation complete. Icons
    saved to: ..." is the last line printed whenever [resize_icon] returns,
    also when the source could not be opened and no icon was made: then the
    output is the error line followed by the completion line, and the disk
    is as it was. *)
Theorem resizer_main_reports (E : Env) (script_dir : string) (w : World) :
  (files w !! source_path = None -> source_path ∉ dirs w ->
   resize_main E script_dir w
   = (Ok tt, set_stdout (stdout w ++ ["Source image not found at: " +:+ source_path]) w)) /\
  (forall e,
     is_Some (files w !! source_path) \/ source_path ∈ dirs w ->
     Image_open E source_path w = (Raise e, w) ->
     resize_main E script_dir w
     = (Ok tt,
        set_stdout (stdout w ++
          ["Error opening source image: " +:+ exn_str e;
           "Icon generation complete. Icons saved to: " +:+ script_dir]) w)) /\
  (forall w1,
     is_Some (files w !! source_path) \/ source_path ∈ dirs w ->
     resize_icon E source_path script_dir w = (Ok tt, w1) ->
     resize_main E script_dir w
     = (Ok tt,
        set_stdout (stdout w1 ++
          ["Icon generation complete. Icons saved to: " +:+ script_dir]) w1)).
Proof.
  assert (is_Some (files w !! source_path) \/ source_path ∈ dirs w ->
    bool_decide (is_Some (files w !! source_path))
    || bool_decide (source_path ∈ dirs w) = true) as Hyes.
  { intros [H|H]; [by rewrite bool_decide_eq_true_2|].
    rewrite (bool_decide_eq_true_2 (source_path ∈ dirs w)) by done. apply orb_true_r. }
  split_and!.
  - intros Hf Hd. unfold resize_main, mbind, M_bind, os_path_exists.
    rewrite bool_decide_eq_false_2 by (rewrite Hf; by intros [? ?]).
    by rewrite bool_decide_eq_false_2.
  - intros e Hex Hopen. unfold resize_main, mbind, M_bind at 1, os_path_exists.
    rewrite (Hyes Hex). cbn [negb].
    rewrite (bind_run _ _ _ _ _ (resize_icon_not_opened _ _ script_dir _ _ _ Hopen)).
    destruct w as [h fs ds out]. unfold print, set_stdout. cbn [heap files dirs stdout].
    by rewrite <- app_assoc.
  - intros w1 Hex Hrun. unfold resize_main, mbind, M_bind at 1, os_path_exists.
    rewrite (Hyes Hex). cbn [negb]. by rewrite (bind_run _ _ _ _ _ Hrun).
Qed.

Lemma resizer_main_reports_witness :
  resize_main no_faults "out" world_out
  = (Ok tt, set_stdout ["Source image not found at: " +:+ source_path] world_out) /\
  resize_main no_faults "out" world_source_text
  = (Ok tt,
     set_stdout ["Error opening source image: " +:+ source_path;
                 "Icon generation complete. Icons saved to: out"] world_source_text).
Proof.
  split.
  - apply (proj1 (resizer_main_reports no_faults "out" world_out)); [done|].
    by vm_compute.
  - apply (proj1 (proj2 (resizer_main_reports no_faults "out" world_source_text))
      (Exception "UnidentifiedImageError" source_path)).
    + left. by eexists.
    + reflexivity.
Defined.

(** X11.  The two scripts write the same thirteen paths of a directory.
    When [resize_icon] runs on the disk a successful [create_ios_icon_set]
    left in that directory and every size can be resized and saved, no
    rendered icon survives: each of the thirteen files holds the resized
    source, and the files are those [resize_icon] alone would have left. *)
Theorem resizer_replaces_rendered_set (E : Env) (src dir : string) (w : World)
    (im : Image) (icon_paths : list (Z * string)) (w1 : World) :
  create_ios_icon_set E dir w = (Ok icon_paths, w1) ->
  files w !! src = Some (ImageFile im) -> open_fault E src = None ->
  makedirs_ok E w dir ->
  (forall s, s ∈ sizes -> src <> icon_path dir s) ->
  (forall s, s ∈ sizes ->
     resize_fault E im (s, s) = None /\
     save_fault E (ImResize im (s, s) "LANCZOS" None) (icon_path dir s) = None) ->
  exists w2,
    resize_icon E src dir w1 = (Ok tt, w2) /\
    (forall s, s ∈ sizes ->
       files w2 !! icon_path dir s = Some (ImageFile (ImResize im (s, s) "LANCZOS" None))) /\
    files w2 = files (resize_icon E src dir w).2.
Proof.
  intros Hset Hf Ho Hm Hsrc Hall.
  apply create_ios_icon_set_inv in Hset as (Hf1 & Hd1 & _).
  assert (forall s, s ∈ sizes ->
    attempt_file E ({[dir]} ∪ dirs w) im dir s
    = Some (ImageFile (ImResize im (s, s) "LANCZOS" None))) as Hturn.
  { intros s Hs. unfold attempt_file.
    assert (is_ok (attempt E ({[dir]} ∪ dirs w) im dir s) = true) as Hok.
    { apply attempt_ok_iff. destruct (Hall s Hs) as [Hr Hw].
      split_and!; [done| |apply parent_exists_icon_path, elem_of_union_l, elem_of_singleton_2; reflexivity|done].
      apply sizes_positive in Hs. lia. }
    by rewrite (attempt_ok_value _ _ _ _ _ Hok). }
  assert (forall p, (forall s, s ∈ sizes -> p <> icon_path dir s) ->
    files w1 !! p = files w !! p) as Hother.
  { intros p Hp. rewrite Hf1, lookup_write_all_other by done.
    apply lookup_insert_ne. intros Heq. apply (Hp 1024); [|done].
    by apply (bool_decide_unpack _). }
  assert (makedirs_ok E w1 dir) as Hm1.
  { destruct Hm as (Hne & Hd & Hfault). split_and!; [done| |done].
    rewrite Hother; [done|]. intros s _ Heq. by apply (icon_path_not_dir dir s). }
  exists (resized_world E w1 src dir im).
  rewrite (resize_icon_run E src dir w im) by done.
  split_and!.
  - apply resize_icon_run; [|done..]. by rewrite Hother.
  - intros s Hs. cbn [resized_world files]. rewrite Hd1.
    by rewrite lookup_write_all_in, Hturn.
  - cbn [resized_world files snd]. rewrite Hd1. apply map_eq. intros p.
    destruct (decide (p ∈ map (icon_path dir) sizes)) as [Hin|Hnin].
    + apply list_elem_of_fmap in Hin as (s & -> & Hs).
      by rewrite !lookup_write_all_in, Hturn.
    + assert (forall s, s ∈ sizes -> p <> icon_path dir s) as Hp.
      { intros s Hs ->. apply Hnin. by apply list_elem_of_fmap_2. }
      rewrite !lookup_write_all_other by done. by apply Hother.
Qed.

Lemma resizer_replaces_rendered_set_witness :
  exists w2,
    resize_icon no_faults "photo.png" "out"
      (create_ios_icon_set no_faults "out" world_busy).2 = (Ok tt, w2) /\
    (forall s, s ∈ sizes ->
       files w2 !! icon_path "out" s
       = Some (ImageFile (ImResize photo (s, s) "LANCZOS" None))) /\
    files w2 = files (resize_icon no_faults "photo.png" "out" world_busy).2.
Proof.
  assert (is_ok (create_ios_icon_set no_faults "out" world_busy).1 = true) as Hok
    by (vm_compute; reflexivity).
  apply (resizer_replaces_rendered_set no_faults "photo.png" "out" world_busy photo _ _
    (run_eta [] _ Hok)); clear Hok.
  - reflexivity.
  - reflexivity.
  - by split_and!.
  - intros s Hs. repeat (apply elem_of_cons in Hs as [->|Hs]); [by vm_compute..|].
    by apply elem_of_nil in Hs.
  - by intros s Hs.
Defined.

(** * The picture *)

Lemma forallb_seqZ (f : Z -> bool) m n x :
  forallb f (seqZ m n) = true -> m <= x < m + n -> f x = true.
Proof.
  intros Hall Hx. eapply forallb_forall in Hall; [exact Hall|].
  by apply list_elem_of_In, elem_of_seqZ.
Qed.

Lemma ink_eqb_eq a b : ink_eqb a b = true -> a = b.
Proof.
  destruct a as [x|r g b0 al], b as [y|r' g' b' al']; cbn [ink_eqb]; try done.
  - by intros ->%Z.eqb_eq.
  - rewrite !andb_true_iff, !Z.eqb_eq. by intros [[[-> ->] ->] ->].
Qed.

Lemma darkening_lookup l : forall k a b,
  darkening l = true -> l !! k = Some a -> l !! S k = Some b -> ink_le b a = true.
Proof.
  induction l as [|x l IH]; intros k a b Hd Ha Hb; [done|].
  destruct l as [|x' l]; [done|]. cbn [darkening] in Hd.
  apply andb_true_iff in Hd as [Hx Hd]. destruct k as [|k].
  - cbn in Ha, Hb. by simplify_eq.
  - by apply (IH k).
Qed.

Lemma inks_between_elem lo hi l c :
  inks_between lo hi l = true -> c ∈ l -> ink_le lo c = true /\ ink_le c hi = true.
Proof.
  intros Hall Hc. unfold inks_between in Hall.
  pose proof (proj1 (forallb_forall _ _) Hall c (proj1 (list_elem_of_In _ _) Hc)) as H.
  by apply andb_true_iff in H.
Qed.

(** The ink of row [y] in the list of the inks of the rows [m], [m + 1], ... *)
Lemma lookup_inks (f : Z -> ink) m n y :
  m <= y < m + n -> map f (seqZ m n) !! Z.to_nat (y - m) = Some (f y).
Proof.
  intros Hy. change (map f (seqZ m n)) with (f <$> seqZ m n).
  rewrite list_lookup_fmap, lookup_seqZ_lt by lia.
  replace (m + Z.of_nat (Z.to_nat (y - m))) with y by lia. reflexivity.
Qed.

Lemma gradient_checked_small : forallb gradient_ok (seqZ 1 180) = true.
Proof. vm_cast_no_check (eq_refl true). Qed.

Lemma gradient_checked_1024 : gradient_ok 1024 = true.
Proof. vm_cast_no_check (eq_refl true). Qed.

Lemma page_checked_small : forallb page_ok (seqZ 10 171) = true.
Proof. vm_cast_no_check (eq_refl true). Qed.

Lemma page_checked_1024 : page_ok 1024 = true.
Proof. vm_cast_no_check (eq_refl true). Qed.

Lemma page_checked_tiny : forallb page_overflows (seqZ 2 8) = true.
Proof. vm_cast_no_check (eq_refl true). Qed.

Lemma gradient_checked size : 1 <= size <= 180 \/ size = 1024 -> gradient_ok size = true.
Proof.
  intros [Hsize| ->]; [|exact gradient_checked_1024].
  exact (forallb_seqZ _ 1 180 size gradient_checked_small ltac:(lia)).
Qed.

Lemma page_checked size : 10 <= size <= 180 \/ size = 1024 -> page_ok size = true.
Proof.
  intros [Hsize| ->]; [|exact page_checked_1024].
  exact (forallb_seqZ _ 10 171 size page_checked_small ltac:(lia)).
Qed.

(** X12.  The sound wave is mirror-symmetric: bars [i] and [6 - i] have the
    same vertical extent, the same corner radius, hence the same width, and
    the same fill, for every [size]. *)
Theorem wave_is_mirror_symmetric (size i : Z) :
  0 <= i <= 6 ->
  exists xy xy' radius fill,
    rounded_rectangles (wave_image size) !! Z.to_nat i = Some (xy, radius, fill) /\
    rounded_rectangles (wave_image size) !! Z.to_nat (6 - i) = Some (xy', radius, fill) /\
    map snd xy = map snd xy'.
Proof.
  intros Hi. rewrite wave_image_bars.
  assert (i = 0 \/ i = 1 \/ i = 2 \/ i = 3 \/ i = 4 \/ i = 5 \/ i = 6) as Hcases by lia.
  destruct Hcases as [->|[->|[->|[->|[->|[->| ->]]]]]];
    eexists _, _, _, _; split_and!; reflexivity.
Qed.

Lemma wave_is_mirror_symmetric_witness :
  exists xy xy' radius fill,
    rounded_rectangles (wave_image 1024) !! Z.to_nat 1 = Some (xy, radius, fill) /\
    rounded_rectangles (wave_image 1024) !! Z.to_nat (6 - 1) = Some (xy', radius, fill) /\
    map snd xy = map snd xy'.
Proof. apply (wave_is_mirror_symmetric 1024 1). lia. Defined.

(** X13.  The background gradient, for every size from 1 to 180, which
    covers the sizes of the list other than 1024, and for 1024: the colour
    of every row lies between (33, 76, 156) and (41, 128, 185) with alpha
    255, so every channel is a byte; the first row has the colour
    (41, 128, 185); and no row is lighter than the row above it ("darker
    blue at bottom"). *)
Theorem gradient_darkens_within_bytes (size y : Z) (v : Image) :
  1 <= size <= 180 \/ size = 1024 ->
  0 <= y < size ->
  ink_le (Rgba 33 76 156 255) (line_ink (gradient_row size y v)) = true /\
  ink_le (line_ink (gradient_row size y v)) (Rgba 41 128 185 255) = true /\
  (y + 1 < size ->
   ink_le (line_ink (gradient_row size (y + 1) v)) (line_ink (gradient_row size y v))
   = true) /\
  line_ink (gradient_row size 0 v) = Rgba 41 128 185 255.
Proof.
  intros Hsize Hy. pose proof (gradient_checked size Hsize) as Hok.
  unfold gradient_ok in Hok. cbv zeta in Hok.
  apply andb_true_iff in Hok as [[Htop Hin]%andb_true_iff Hdown].
  change (line_ink (gradient_row size y v)) with (gradient_ink size y).
  change (line_ink (gradient_row size (y + 1) v)) with (gradient_ink size (y + 1)).
  change (line_ink (gradient_row size 0 v)) with (gradient_ink size 0).
  assert (forall z, 0 <= z < size ->
    gradient_inks size !! Z.to_nat z = Some (gradient_ink size z)) as Hrow.
  { intros z Hz. unfold gradient_inks, Py.range.
    rewrite <- (lookup_inks (gradient_ink size) 0 size z) by lia. do 2 f_equal. lia. }
  destruct (inks_between_elem _ _ _ _ Hin (list_elem_of_lookup_2 _ _ _ (Hrow y Hy)))
    as [Hlo Hhi].
  split_and!; [exact Hlo|exact Hhi| |].
  - intros Hnext. apply (darkening_lookup _ (Z.to_nat y) _ _ Hdown (Hrow y Hy)).
    rewrite <- Z2Nat.inj_succ by lia. apply Hrow. lia.
  - apply ink_eqb_eq in Htop. rewrite <- Htop.
    pose proof (Hrow 0 ltac:(lia)) as H0. change (Z.to_nat 0) with 0%nat in H0.
    destruct (gradient_inks size) as [|c l]; [discriminate H0|].
    cbn in H0. cbn [hd]. by simplify_eq.
Qed.

Lemma gradient_darkens_within_bytes_witness :
  ink_le (Rgba 33 76 156 255) (line_ink (gradient_row 1024 512 (blank 1024))) = true /\
  ink_le (line_ink (gradient_row 1024 512 (blank 1024))) (Rgba 41 128 185 255) = true /\
  (512 + 1 < 1024 ->
   ink_le (line_ink (gradient_row 1024 (512 + 1) (blank 1024)))
     (line_ink (gradient_row 1024 512 (blank 1024))) = true) /\
  line_ink (gradient_row 1024 0 (blank 1024)) = Rgba 41 128 185 255.
Proof.
  refine (gradient_darkens_within_bytes 1024 512 (blank 1024) (or_intror eq_refl) _).
  lia.
Defined.

(** X14.  The page gradient, for every size from 10 to 180 and for 1024:
    the colour of every row lies between (245, 250, 255) and white with
    alpha 255 and no row is lighter than the row above it.  For the sizes 2
    to 9 the loop starts at row 0, above the page, and computes a red
    channel of 256 for it, which is not a byte. *)
Theorem page_rows_within_bytes_from_10 (size : Z) (v : Image) :
  (10 <= size <= 180 \/ size = 1024 ->
   forall y, y ∈ page_rows size ->
     ink_le (Rgba 245 250 255 255) (line_ink (page_row size y v)) = true /\
     ink_le (line_ink (page_row size y v)) (Rgba 255 255 255 255) = true /\
     (y + 1 ∈ page_rows size ->
      ink_le (line_ink (page_row size (y + 1) v)) (line_ink (page_row size y v)) = true)) /\
  (2 <= size <= 9 ->
   page_rows size !! 0%nat = Some 0 /\
   line_ink (page_row size 0 v) = Rgba 256 255 255 255).
Proof.
  split.
  - intros Hsize y Hy. pose proof (page_checked size Hsize) as Hok.
    unfold page_ok in Hok. cbv zeta in Hok. apply andb_true_iff in Hok as [Hin Hdown].
    change (line_ink (page_row size y v)) with (page_ink size y).
    change (line_ink (page_row size (y + 1) v)) with (page_ink size (y + 1)).
    unfold page_inks, page_rows, Py.range2 in *.
    set (m := Py.int (page_y size)) in *.
    set (n := Py.int (page_y size + page_height size)%py - m) in *.
    assert (forall z, z ∈ seqZ m n ->
      map (page_ink size) (seqZ m n) !! Z.to_nat (z - m) = Some (page_ink size z)) as Hrow.
    { intros z Hz%elem_of_seqZ. by apply lookup_inks. }
    destruct (inks_between_elem _ _ _ _ Hin (list_elem_of_lookup_2 _ _ _ (Hrow y Hy)))
      as [Hlo Hhi].
    split_and!; [exact Hlo|exact Hhi|].
    intros Hnext. apply (darkening_lookup _ (Z.to_nat (y - m)) _ _ Hdown (Hrow y Hy)).
    apply elem_of_seqZ in Hy. rewrite <- Z2Nat.inj_succ by lia.
    replace (Z.succ (y - m)) with (y + 1 - m) by lia. by apply Hrow.
  - intros Hsize.
    pose proof (forallb_seqZ _ 2 8 size page_checked_tiny ltac:(lia)) as Hover.
    unfold page_overflows in Hover. apply andb_true_iff in Hover as [Hrow Hred].
    split; [exact (proj1 (bool_decide_eq_true _) Hrow) | exact (ink_eqb_eq _ _ Hred)].
Qed.

Lemma page_rows_within_bytes_from_10_witness :
  (ink_le (Rgba 245 250 255 255) (line_ink (page_row 1024 102 (blank 1024))) = true /\
   ink_le (line_ink (page_row 1024 102 (blank 1024))) (Rgba 255 255 255 255) = true /\
   (102 + 1 ∈ page_rows 1024 ->
    ink_le (line_ink (page_row 1024 (102 + 1) (blank 1024)))
      (line_ink (page_row 1024 102 (blank 1024))) = true)) /\
  (page_rows 2 !! 0%nat = Some 0 /\
   line_ink (page_row 2 0 (blank 2)) = Rgba 256 255 255 255).
Proof.
  split.
  - refine (proj1 (page_rows_within_bytes_from_10 1024 (blank 1024))
      (or_intror eq_refl) 102 _).
    unfold page_rows, Py.range2. apply elem_of_seqZ. split; by vm_compute.
  - refine (proj2 (page_rows_within_bytes_from_10 2 (blank 2)) _). lia.
Defined.

Lemma wave_checked : forallb wave_tapers (seqZ 0 1025) = true.
Proof. vm_cast_no_check (eq_refl true). Qed.

Lemma boxes_checked : forallb boxes_ok (seqZ 0 1025) = true.
Proof. vm_cast_no_check (eq_refl true). Qed.

(** X15.  "The central line should be tallest, with lines tapering off to
    sides": for every size from 0 to 1024, going from the edge to the
    centre each bar of the sound wave is at least as tall and at least as
    thick as the one before it, and no bar is thinner than 2. *)
Theorem wave_tapers_from_centre (size i : Z) :
  0 <= size <= 1024 -> 0 <= i < 3 ->
  num_le (amplitude size i) (amplitude size (i + 1)) = true /\
  line_width size i <= line_width size (i + 1) /\
  2 <= line_width size i.
Proof.
  intros Hsize Hi.
  pose proof (forallb_seqZ _ 0 1025 size wave_checked ltac:(lia)) as Hwave.
  unfold wave_tapers in Hwave.
  pose proof (forallb_seqZ (bar_tapers size) 0 3 i Hwave ltac:(lia)) as Hbar.
  unfold bar_tapers in Hbar.
  apply andb_true_iff in Hbar as [[Ha Hw]%andb_true_iff Hmin].
  split_and!; [exact Ha | by apply Z.leb_le | by apply Z.leb_le].
Qed.

Lemma wave_tapers_from_centre_witness :
  num_le (amplitude 1024 2) (amplitude 1024 (2 + 1)) = true /\
  line_width 1024 2 <= line_width 1024 (2 + 1) /\
  2 <= line_width 1024 2.
Proof. refine (wave_tapers_from_centre 1024 2 _ _); lia. Defined.

(** X16.  Every rounded rectangle [create_voicejournal_icon] draws, on the
    two masks, the shadow and the wave, has its corners in order,
    [x0 <= x1] and [y0 <= y1], for every size from 0 to 1024: none of the
    five calls is handed an inverted box. *)
Theorem rounded_rectangles_well_ordered (size : Z) (im : Image)
    (xy : list point) (radius : Py.num) (fill : ink) :
  0 <= size <= 1024 ->
  im ∈ rounded_images size ->
  (xy, radius, fill) ∈ rounded_rectangles im ->
  box_ok xy = true.
Proof.
  intros Hsize Him Hbox.
  pose proof (forallb_seqZ _ 0 1025 size boxes_checked ltac:(lia)) as Hall.
  unfold boxes_ok in Hall.
  pose proof (proj1 (forallb_forall _ _) Hall im (proj1 (list_elem_of_In _ _) Him)) as Him'.
  exact (proj1 (forallb_forall _ _) Him' _ (proj1 (list_elem_of_In _ _) Hbox)).
Qed.

Lemma rounded_rectangles_well_ordered_witness :
  box_ok [(page_x 1024, page_y 1024);
          ((page_x 1024 + page_width 1024)%py, (page_y 1024 + page_height 1024)%py)]
  = true.
Proof.
  refine (rounded_rectangles_well_ordered 1024 (page_mask_image 1024) _
    (I (1024 // 20)) (Gray 255) _ _ _).
  - lia.
  - apply list_elem_of_further, list_elem_of_here.
  - apply list_elem_of_here.
Defined.
